(** * query.py: linking person references in TEI documents to a person dump

    A shallow embedding of [query.py] and the properties of its three
    stages ([load_data], [extract_referenced_persons], [get_top_persons])
    and of the driver [main].

    Conventions of the embedding:
    - a Python [str] is a list of Unicode code points, so that [len] and
      slicing count characters as Python does;
    - a Python [int] is a [Z];
    - a Python [dict] is an association list in insertion order (the order
      [items()] iterates in);
    - a call that may raise returns a [result]; exceptions propagate through
      [bind] as they do through Python statements;
    - the two library parsers, [ET.fromstring] and [json.loads], are section
      variables: general statements hold for whatever they return. *)

From Stdlib Require Import Ascii String DecimalString.
From Stdlib Require Import List ZArith NArith Lia Bool Sorted Permutation.
Import ListNotations.
Local Open Scope Z_scope.
Set Warnings "-register-all".

(** ** Python values *)

Module Py.

(** A character is a code point. *)
Definition char := N.
Definition str := list char.

(** [lit s] is the [str] of an ASCII literal of the source. *)
Definition lit (s : string) : str :=
  map N_of_ascii (list_ascii_of_string s).
Arguments lit s%_string.

Definition str_eq_dec : forall a b : str, {a = b} + {a <> b} :=
  list_eq_dec N.eq_dec.

Definition str_eqb (a b : str) : bool :=
  if str_eq_dec a b then true else false.

(** [str(z)], as an f-string formats an int. *)
Definition str_of_int (z : Z) : str :=
  map N_of_ascii (list_ascii_of_string (NilZero.string_of_int (Z.to_int z))).

(** [len(l)] *)
Definition len {A} (l : list A) : Z := Z.of_nat (length l).

(** [l[:n]]: the first [n] items, and for a negative [n] all but the last
    [-n]. *)
Definition slice_to {A} (n : Z) (l : list A) : list A :=
  if 0 <=? n then firstn (Z.to_nat n) l
  else firstn (length l - Z.to_nat (- n)) l.

(** The exceptions the program can raise. *)
Inductive exn : Type :=
| StopIteration
| KeyError (key : str)
| IndexError
| TypeError
| AssertionError
| ParseError
| JSONDecodeError
| FileNotFoundError (name : str)
| OSError (name : str).

Inductive result (A : Type) : Type :=
| Ok (a : A)
| Raise (e : exn).
Arguments Ok {A} a.
Arguments Raise {A} e.

Definition bind {A B} (m : result A) (k : A -> result B) : result B :=
  match m with
  | Ok a => k a
  | Raise e => Raise e
  end.

(** [assert b] *)
Definition assert (b : bool) : result unit :=
  if b then Ok tt else Raise AssertionError.

(** [for x in l: s = body x s], stopping at the first exception. *)
Fixpoint for_each {A S} (l : list A) (body : A -> S -> result S) (s : S)
  : result S :=
  match l with
  | [] => Ok s
  | x :: l' => bind (body x s) (for_each l' body)
  end.

Definition is_KeyError (e : exn) : Prop := exists key, e = KeyError key.

(** *** dict *)

Definition dict (V : Type) := list (str * V).

Definition keys {V} (d : dict V) : list str := map fst d.

(** [d.get(k)] *)
Fixpoint dict_get {V} (d : dict V) (k : str) : option V :=
  match d with
  | [] => None
  | (k', v) :: d' => if str_eq_dec k' k then Some v else dict_get d' k
  end.

(** [d[k]] *)
Definition getitem {V} (d : dict V) (k : str) : result V :=
  match dict_get d k with
  | Some v => Ok v
  | None => Raise (KeyError k)
  end.

(** [d[k] = v]: an existing key keeps its place, a new one goes last. *)
Fixpoint dict_set {V} (d : dict V) (k : str) (v : V) : dict V :=
  match d with
  | [] => [(k, v)]
  | (k', v') :: d' =>
      if str_eq_dec k' k then (k', v) :: d' else (k', v') :: dict_set d' k v
  end.

(** *** sorted *)

(** [sorted(l, key=key, reverse=True)]. Python's sort is stable, also
    with [reverse=True]: items with equal keys keep their order. Insertion
    from the right, each item placed before the first one whose key is
    not larger, is such a sort. *)
Fixpoint insert_desc {A} (key : A -> Z) (x : A) (l : list A) : list A :=
  match l with
  | [] => [x]
  | y :: l' =>
      if key x <? key y then y :: insert_desc key x l' else x :: y :: l'
  end.

Fixpoint sorted_desc {A} (key : A -> Z) (l : list A) : list A :=
  match l with
  | [] => []
  | x :: l' => insert_desc key x (sorted_desc key l')
  end.

(** The order of a list sorted by [key], largest first. *)
Definition desc {A} (key : A -> Z) (x y : A) : Prop := key y <= key x.

(** The items of [l] whose key is [c], in the order they have in [l]. *)
Definition with_key {A} (key : A -> Z) (c : Z) (l : list A) : list A :=
  filter (fun x => key x =? c) l.

(** [l1] is an initial segment of [l2]. *)
Definition initial {A} (l1 l2 : list A) : Prop := exists rest, l2 = l1 ++ rest.

End Py.
Import Py.

Notation "x <- m ;; k" := (bind m (fun x => k))
  (at level 61, m at next level, right associativity).
Notation "m ;;; k" := (bind m (fun _ => k))
  (at level 61, right associativity).

(** ** xml.etree.ElementTree *)

Module ET.

(** An element: its tag (a namespaced tag is [{uri}local]), its attributes
    and its children in document order. *)
Inductive Element : Type :=
| Elem (tag : str) (attrib : dict str) (children : list Element).

Definition tag (e : Element) : str :=
  match e with Elem t _ _ => t end.
Definition attrib (e : Element) : dict str :=
  match e with Elem _ a _ => a end.
Definition children (e : Element) : list Element :=
  match e with Elem _ _ c => c end.

(** [e.get(key)] *)
Definition get (e : Element) (key : str) : option str :=
  dict_get (attrib e) key.

(** [e.iter(tag)]: [e] itself when its tag is [t], then the elements below
    it, in document order. *)
Fixpoint iter (t : str) (e : Element) : list Element :=
  match e with
  | Elem t' _ cs =>
      (if str_eqb t' t then [e] else []) ++ flat_map (iter t) cs
  end.

(** A [prefix:local] step of a path, resolved against the namespace map
    to [{uri}local]; a prefix the map lacks is a syntax error of the
    path. *)
Definition qname (ns : dict str) (prefix local : str) : option str :=
  match dict_get ns prefix with
  | Some uri => Some (lit "{" ++ uri ++ lit "}" ++ local)
  | None => None
  end.

(** The path step [//t] from [root]: [for e in root.iter(t): if e is not
    root: yield e]. Only the first item of [root.iter(t)] can be [root]
    itself, so these are the matches below the children. *)
Definition select_descendant (t : str) (root : Element) : list Element :=
  flat_map (iter t) (children root).

(** The predicate [[@key]]: [if elem.get(key) is not None]. *)
Definition has_attr (key : str) (e : Element) : bool :=
  match get e key with
  | Some _ => true
  | None => false
  end.

(** [root.findall(".//t[@key]")] *)
Definition findall_descendant_attr (t key : str) (root : Element)
  : list Element :=
  filter (has_attr key) (select_descendant t root).

(** [e] lies strictly below [root], at any depth. *)
Inductive below (root : Element) : Element -> Prop :=
| below_child e : In e (children root) -> below root e
| below_deeper c e : In c (children root) -> below c e -> below root e.

(** Induction on an element with the hypothesis for all its children. *)
Fixpoint Element_children_ind (P : Element -> Prop)
  (step : forall t a cs, Forall P cs -> P (Elem t a cs)) (e : Element) : P e :=
  match e with
  | Elem t a cs =>
      step t a cs
        ((fix all (l : list Element) : Forall P l :=
            match l with
            | [] => Forall_nil P
            | c :: l' => Forall_cons c (Element_children_ind P step c) (all l')
            end) cs)
  end.

End ET.
Import ET.

(** ** pathlib *)

Module Path.

(** A directory: the names of its entries, in the order the operating
    system lists them, each with what [read_text()] gives for it. *)
Definition directory := list (str * result str).

Fixpoint tails {A} (l : list A) : list (list A) :=
  l :: match l with
       | [] => []
       | _ :: l' => tails l'
       end.

(** Matching of a name against a pattern made of literal characters and
    [*] (code point 42), which stands for any run of characters. *)
Fixpoint fnmatch (pat name : str) : bool :=
  match pat with
  | [] => match name with [] => true | _ :: _ => false end
  | c :: pat' =>
      if N.eqb c 42 then existsb (fnmatch pat') (tails name)
      else match name with
           | [] => false
           | d :: name' => N.eqb c d && fnmatch pat' name'
           end
  end.

(** [data_dir.glob(pat)]: the generator's items, in order. *)
Definition glob (data_dir : directory) (pat : str) : directory :=
  filter (fun f => fnmatch pat (fst f)) data_dir.

(** [(data_dir / name).read_text()] *)
Definition read_text (data_dir : directory) (name : str) : result str :=
  match find (fun f => str_eqb (fst f) name) data_dir with
  | Some f => snd f
  | None => Raise (FileNotFoundError name)
  end.

End Path.
Import Path.

(** ** The program *)

Definition TOP : Z := 10.
Definition DB_FILE : str := lit "persons.json".

(** A record of the dump: a JSON object with string values. *)
Definition record := dict str.

(** One entry of the ranking: (name, id, count). *)
Definition entry : Type := str * str * Z.
Definition entry_count (x : entry) : Z := snd x.

(** [ns = {"tei": "http://www.tei-c.org/ns/1.0"}] *)
Definition ns : dict str := [(lit "tei", lit "http://www.tei-c.org/ns/1.0")].

(** The tag that the path [.//tei:persname[@ref]] names. *)
Definition persname_tag : str :=
  match qname ns (lit "tei") (lit "persname") with
  | Some t => t
  | None => []
  end.

(** [root.findall(".//tei:persname[@ref]", ns)] *)
Definition findall_persname (root : Element) : list Element :=
  findall_descendant_attr persname_tag (lit "ref") root.

(** The body of the inner loop of [extract_referenced_persons]:
    [ref = person.get("ref"); ref = ref[:9]; persons[ref] = 1]. *)
Definition count_person (person : Element) (persons : dict Z)
  : result (dict Z) :=
  match get person (lit "ref") with
  | None => Raise TypeError
  | Some ref => Ok (dict_set persons (slice_to 9 ref) 1)
  end.

(** The values of the [ref] attributes that the loop over one document
    visits, in document order. *)
Definition person_refs (root : Element) : list str :=
  flat_map (fun e => match get e (lit "ref") with
                     | Some ref => [ref]
                     | None => []
                     end)
           (findall_persname root).

(** The keys it assigns to. *)
Definition person_keys (root : Element) : list str :=
  map (slice_to 9) (person_refs root).

(** [persons[k] = 1] for each [k] of a list, in turn. *)
Definition set_all (ks : list str) (persons : dict Z) : dict Z :=
  fold_left (fun d k => dict_set d k 1) ks persons.

Section Program.

(** [ET.fromstring] and [json.loads]. *)
Variable fromstring : str -> result Element.
Variable json_loads : str -> result (list record).

Definition extract_file (file : str) (persons : dict Z) : result (dict Z) :=
  root <- fromstring file ;;
  for_each (findall_persname root) count_person persons.

Definition extract_referenced_persons (xml_files : list str)
  : result (dict Z) :=
  for_each xml_files extract_file [].

(** The documents parsed in turn, up to the first that fails. *)
Fixpoint parse_all (xml_files : list str) : result (list Element) :=
  match xml_files with
  | [] => Ok []
  | file :: rest =>
      root <- fromstring file ;;
      roots <- parse_all rest ;;
      Ok (root :: roots)
  end.

(** The loop of [load_data]:
    [while True: xml_files.append(next(file_list).read_text())].
    [file_list] holds what the generator has not yielded yet; [next] on
    the exhausted generator raises [StopIteration], and the loop has no
    other way out. *)
Fixpoint read_files (file_list : directory) (xml_files : list str)
  : result (list str) :=
  match file_list with
  | [] => Raise StopIteration
  | f :: rest =>
      text <- snd f ;;
      read_files rest (xml_files ++ [text])
  end.

Definition load_data (data_dir : directory) (db_file : str)
  : result (list str * list record) :=
  xml_files <- read_files (glob data_dir (lit "*-1.xml")) [] ;;
  text <- read_text data_dir db_file ;;
  db <- json_loads text ;;
  Ok (xml_files, db).

(** The body of the inner loop of [get_top_persons]. *)
Definition join_record (person_id : str) (count : Z) (person : record)
  (acc : list entry) : result (list entry) :=
  name <- getitem person (lit "name") ;;
  if str_eqb name person_id then
    name' <- getitem person (lit "name") ;;
    id <- getitem person (lit "id") ;;
    Ok (acc ++ [(name', id, count)])
  else Ok acc.

(** The body of its outer loop, for one item of [references.items()]. *)
Definition join_reference (db : list record) (item : str * Z)
  (acc : list entry) : result (list entry) :=
  for_each db (join_record (fst item) (snd item)) acc.

(** The list [result] when both loops are done. *)
Definition join (references : dict Z) (db : list record)
  : result (list entry) :=
  for_each references (join_reference db) [].

Definition get_top_persons (references : dict Z) (db : list record) (n : Z)
  : result (list entry) :=
  joined <- join references db ;;
  Ok (slice_to n (sorted_desc entry_count joined)).

(** [f"Die {TOP} am häufigsten referenzierten Personen sind:"]; code
    point 228 is the a-umlaut. *)
Definition header : str :=
  lit "Die " ++ str_of_int TOP ++ lit " am h" ++ [228%N]
    ++ lit "ufigsten referenzierten Personen sind:".

(** [f"{name} ({person_id}) - {count} Referenzen"] *)
Definition line (x : entry) : str :=
  let '(name, person_id, count) := x in
  name ++ lit " (" ++ person_id ++ lit ") - " ++ str_of_int count
    ++ lit " Referenzen".

(** [top_names[0]] *)
Definition first {A} (l : list A) : result A :=
  match l with
  | x :: _ => Ok x
  | [] => Raise IndexError
  end.

(** [main] from its second statement on. The value is the list of the
    lines printed: every statement that can raise comes before the first
    [print], so a run that raises has printed nothing. *)
Definition main_body (top_n : Z) (xml_files : list str)
  (db_dump : list record) : result (list str) :=
  assert (len xml_files =? 18) ;;;
  persons <- extract_referenced_persons xml_files ;;
  top_names <- get_top_persons persons db_dump top_n ;;
  assert (len top_names =? top_n) ;;;
  top <- first top_names ;;
  assert (str_eqb (fst (fst top)) (lit "Rudolf")) ;;;
  Ok (header :: map line top_names).

(** [main(top_n)], run with [DATA_DIR] holding [data_dir]. *)
Definition main (data_dir : directory) (top_n : Z) : result (list str) :=
  loaded <- load_data data_dir DB_FILE ;;
  main_body top_n (fst loaded) (snd loaded).

End Program.

(** ** Concrete documents and dumps *)

Module Samples.

(** A parser given by a table: the documents of a sample, each with the
    tree [ET.fromstring] builds for it; any other text is taken as
    malformed. *)
Definition parser_of (table : list (str * Element)) (text : str)
  : result Element :=
  match dict_get table text with
  | Some root => Ok root
  | None => Raise ParseError
  end.

Definition tei (local : string) : str :=
  lit "{http://www.tei-c.org/ns/1.0}" ++ lit local.

(** An element of the TEI namespace with a [ref] attribute and no
    children. *)
Definition person (local ref : string) : Element :=
  Elem (tei local) [(lit "ref", lit ref)] [].

(** Scenario A: three [persName] elements below a paragraph. *)
Definition scenarioA_text : str :=
  lit "<TEI xmlns='http://www.tei-c.org/ns/1.0'><p><persName ref='P000123456'/><persName ref='P0001234-x'/><persName ref='P000123456'/></p></TEI>".

Definition scenarioA_root : Element :=
  Elem (tei "TEI") []
    [Elem (tei "p") []
       [person "persName" "P000123456";
        person "persName" "P0001234-x";
        person "persName" "P000123456"]].

Definition scenarioA_db : list record :=
  [[(lit "id", lit "P000123456"); (lit "name", lit "Rudolf")]].

(** The same document with the tag spelled as the path of
    [extract_referenced_persons] spells it. *)
Definition lower_text : str :=
  lit "<TEI xmlns='http://www.tei-c.org/ns/1.0'><p><persname ref='P000123456'/><persname ref='P0001234-x'/><persname ref='P000123456'/></p></TEI>".

Definition lower_root : Element :=
  Elem (tei "TEI") []
    [Elem (tei "p") []
       [person "persname" "P000123456";
        person "persname" "P0001234-x";
        person "persname" "P000123456"]].

(** Two references to one person. *)
Definition twice_text : str :=
  lit "<TEI xmlns='http://www.tei-c.org/ns/1.0'><persname ref='P000123456'/><persname ref='P000123456'/></TEI>".

Definition twice_root : Element :=
  Elem (tei "TEI") []
    [person "persname" "P000123456"; person "persname" "P000123456"].

(** Two raw identifiers with the same first nine characters. *)
Definition collapse_text : str :=
  lit "<TEI xmlns='http://www.tei-c.org/ns/1.0'><persname ref='P000123456'/><persname ref='P000123457'/></TEI>".

Definition collapse_root : Element :=
  Elem (tei "TEI") []
    [person "persname" "P000123456"; person "persname" "P000123457"].

(** One element with an empty [ref] and one without the attribute. *)
Definition empty_text : str :=
  lit "<TEI xmlns='http://www.tei-c.org/ns/1.0'><persname ref=''/><persname/></TEI>".

Definition empty_root : Element :=
  Elem (tei "TEI") [] [person "persname" ""; Elem (tei "persname") [] []].

(** A document whose reference is a name of the dump. *)
Definition rudolf_text : str :=
  lit "<TEI xmlns='http://www.tei-c.org/ns/1.0'><persname ref='Rudolf'/></TEI>".

Definition rudolf_root : Element :=
  Elem (tei "TEI") [] [person "persname" "Rudolf"].

Definition table : list (str * Element) :=
  [(scenarioA_text, scenarioA_root); (lower_text, lower_root);
   (twice_text, twice_root); (collapse_text, collapse_root);
   (empty_text, empty_root); (rudolf_text, rudolf_root)].

(** [ET.fromstring] on the documents above. *)
Definition fromstring : str -> result Element := parser_of table.

(** A record with the keys [id] and [name]. *)
Definition person_record (id name : string) : record :=
  [(lit "id", lit id); (lit "name", lit name)].

(** A record as the module's docstring describes the dump, with the keys
    [ID] and [name]. *)
Definition dump_record (id name : string) : record :=
  [(lit "ID", lit id); (lit "name", lit name)].

Definition rudolf_db : list record := [person_record "P00012345" "Rudolf"].

Definition two_db : list record :=
  [person_record "P00012345" "Rudolf"; person_record "P00067890" "Anna"].

Definition two_references : dict Z :=
  [(lit "P00012345", 3); (lit "P00067890", 1)].

Definition three_db : list record :=
  [person_record "P00000001" "Anna"; person_record "P00000002" "Rudolf";
   person_record "P00000003" "Bert"].

Definition three_references : dict Z :=
  [(lit "Anna", 1); (lit "Rudolf", 3); (lit "Bert", 1)].

(** A data directory with two documents and the dump. *)
Definition two_files : directory :=
  [(lit "a-1.xml", Ok twice_text); (lit "notes.txt", Ok []);
   (lit "b-1.xml", Ok rudolf_text); (lit "persons.json", Ok (lit "[]"))].

(** [json.loads] on the dump of [two_files]. *)
Definition json_loads (text : str) : result (list record) :=
  if str_eqb text (lit "[]") then Ok [] else Raise JSONDecodeError.

(** A data directory with eighteen copies of one document. *)
Definition eighteen_files : directory :=
  map (fun i => (str_of_int (Z.of_nat i) ++ lit "-1.xml", Ok rudolf_text))
      (seq 1 18)
  ++ [(lit "persons.json", Ok (lit "[]"))].

(** Following the words of the specification: the referenced CanonicalIDs
    that are resolvable, those for which the dump has a record whose
    identifier equals the CanonicalID. *)
Definition spec_resolvable (references : dict Z) (db : list record)
  : list str :=
  filter (fun k =>
            existsb (fun person =>
                       match dict_get person (lit "id") with
                       | Some id => str_eqb id k
                       | None => false
                       end) db)
         (keys references).

End Samples.


(** ** The rest of the script, and what the loops compute *)

(** The entry of the script: [main(args.top if args.top else TOP)], where
    [args.top] is the integer given with [--top] and [TOP] when the option
    is absent. *)
Definition script (fromstring : str -> result Element)
  (json_loads : str -> result (list record)) (data_dir : directory)
  (top : option Z) : result (list str) :=
  let args_top := match top with
                  | Some t => t
                  | None => TOP
                  end in
  main fromstring json_loads data_dir (if args_top =? 0 then TOP else args_top).

(** The entries that one item of the mapping and one record of the dump
    add to the list [result] of [get_top_persons], when no lookup fails. *)
Definition matches_of (item : str * Z) (person : record) : list entry :=
  match dict_get person (lit "name") with
  | Some name =>
      if str_eqb name (fst item) then
        match dict_get person (lit "id") with
        | Some id => [(name, id, snd item)]
        | None => []
        end
      else []
  | None => []
  end.

(** All of them: item by item and, for one item, record by record. *)
Definition joined_entries (references : dict Z) (db : list record)
  : list entry :=
  flat_map (fun item => flat_map (matches_of item) db) references.

(** The distinct items of a list, each at the place of its first
    occurrence ([nodup] keeps the last ones). *)
Definition first_seen (l : list str) : list str :=
  rev (nodup str_eq_dec (rev l)).

(** [name] ends in [suffix]. *)
Definition ends_with (suffix name : str) : Prop :=
  exists stem, name = stem ++ suffix.

(** [read_text()] succeeds on a directory entry. *)
Definition readable (f : str * result str) : Prop :=
  exists text, snd f = Ok text.

Module MoreSamples.

(** A text that is not well-formed XML. *)
Definition broken_text : str := lit "<TEI><persname ref='P1'></TEI>".

(** A data directory whose second matching entry cannot be read. *)
Definition unreadable_files : directory :=
  [(lit "a-1.xml", Ok Samples.twice_text);
   (lit "b-1.xml", Raise (OSError (lit "b-1.xml")));
   (lit "c-1.xml", Ok Samples.rudolf_text)].

(** A dump with two records of one name. *)
Definition namesakes_db : list record :=
  [Samples.person_record "P00000001" "Rudolf";
   Samples.person_record "P00000002" "Anna";
   Samples.person_record "P00000003" "Rudolf"].

(** A dump with a record that has no name. *)
Definition nameless_db : list record :=
  [Samples.person_record "P00000001" "Rudolf"; [(lit "id", lit "P00000002")]].

End MoreSamples.

(** * Properties *)

(** ** The result monad and the loops *)

Lemma bind_Ok_inv {A B} (m : result A) (k : A -> result B) (b : B) :
  bind m k = Ok b -> exists a, m = Ok a /\ k a = Ok b.
Proof.
  destruct m as [a | e]; simpl; intros H.
  - exists a. split; [reflexivity | exact H].
  - discriminate H.
Qed.

Lemma for_each_app {A S} (l1 l2 : list A) (body : A -> S -> result S) (s : S) :
  for_each (l1 ++ l2) body s = bind (for_each l1 body s) (for_each l2 body).
Proof.
  revert s. induction l1 as [| x l1 IH]; intros s; simpl.
  - reflexivity.
  - destruct (body x s) as [s' | e]; simpl; [apply IH | reflexivity].
Qed.

(** A loop whose body never raises is a left fold. *)
Lemma for_each_total {A S} (l : list A) (body : A -> S -> result S)
  (step : S -> A -> S) (s : S) :
  (forall x s', In x l -> body x s' = Ok (step s' x)) ->
  for_each l body s = Ok (fold_left step l s).
Proof.
  revert s. induction l as [| x l IH]; intros s Hbody; simpl.
  - reflexivity.
  - rewrite Hbody by (left; reflexivity). simpl.
    apply IH. intros y s' Hy. apply Hbody. right. exact Hy.
Qed.

(** ** dict *)

Lemma str_eqb_eq (a b : str) : str_eqb a b = true <-> a = b.
Proof.
  unfold str_eqb. destruct (str_eq_dec a b); split; congruence.
Qed.

Lemma str_eqb_refl (a : str) : str_eqb a a = true.
Proof. apply str_eqb_eq. reflexivity. Qed.

Lemma dict_get_set_same {V} (d : dict V) (k : str) (v : V) :
  dict_get (dict_set d k v) k = Some v.
Proof.
  induction d as [| [k' v'] d IH]; simpl.
  - destruct (str_eq_dec k k); congruence.
  - destruct (str_eq_dec k' k) as [E | N]; simpl.
    + destruct (str_eq_dec k' k); congruence.
    + destruct (str_eq_dec k' k); [contradiction | exact IH].
Qed.

Lemma dict_get_set_other {V} (d : dict V) (k k0 : str) (v : V) :
  k <> k0 -> dict_get (dict_set d k v) k0 = dict_get d k0.
Proof.
  intros Hne. induction d as [| [k' v'] d IH]; simpl.
  - destruct (str_eq_dec k k0); [contradiction | reflexivity].
  - destruct (str_eq_dec k' k) as [E | N]; simpl.
    + subst k'. destruct (str_eq_dec k k0); [contradiction | reflexivity].
    + destruct (str_eq_dec k' k0); [reflexivity | exact IH].
Qed.

Lemma dict_get_None {V} (d : dict V) (k : str) :
  dict_get d k = None <-> ~ In k (keys d).
Proof.
  induction d as [| [k' v'] d IH]; simpl.
  - split; [intros _ [] | reflexivity].
  - destruct (str_eq_dec k' k) as [E | N].
    + split; [discriminate | intros H; exfalso; apply H; left; exact E].
    + rewrite IH. split; [intros H [E | I]; auto | intros H I; apply H; right; exact I].
Qed.

Lemma keys_dict_set {V} (d : dict V) (k k0 : str) (v : V) :
  In k0 (keys (dict_set d k v)) <-> In k0 (keys d) \/ k0 = k.
Proof.
  induction d as [| [k' v'] d IH]; simpl.
  - split; [intros [E | []]; right; congruence | intros [[] | E]; left; congruence].
  - destruct (str_eq_dec k' k) as [E | N]; simpl.
    + subst k'. split; [intros H; left; exact H | intros [H | E]; [exact H | left; congruence]].
    + rewrite IH. tauto.
Qed.

Lemma NoDup_keys_dict_set {V} (d : dict V) (k : str) (v : V) :
  NoDup (keys d) -> NoDup (keys (dict_set d k v)).
Proof.
  induction d as [| [k' v'] d IH]; simpl; intros Hnd.
  - constructor; [intros [] | constructor].
  - destruct (str_eq_dec k' k) as [E | N]; simpl.
    + exact Hnd.
    + inversion Hnd as [| ? ? Hnotin Hnd']; subst. constructor.
      * intros Hin. apply keys_dict_set in Hin. destruct Hin as [Hin | E]; [auto | congruence].
      * apply IH. exact Hnd'.
Qed.

Lemma values_dict_set {V} (P : V -> Prop) (d : dict V) (k : str) (v : V) :
  P v -> Forall (fun kv => P (snd kv)) d ->
  Forall (fun kv => P (snd kv)) (dict_set d k v).
Proof.
  intros Hv. induction d as [| [k' v'] d IH]; simpl; intros Hd.
  - constructor; [exact Hv | constructor].
  - inversion Hd as [| ? ? Hhd Htl]; subst.
    destruct (str_eq_dec k' k); constructor; auto.
Qed.

(** ** Slices *)

Lemma slice_to_firstn {A} (n : Z) (l : list A) :
  exists k, slice_to n l = firstn k l.
Proof.
  unfold slice_to. destruct (0 <=? n); eexists; reflexivity.
Qed.

Lemma slice_to_nonneg {A} (n : Z) (l : list A) :
  0 <= n -> slice_to n l = firstn (Z.to_nat n) l.
Proof.
  intros Hn. unfold slice_to.
  destruct (0 <=? n) eqn:E; [reflexivity | apply Z.leb_gt in E; lia].
Qed.

Lemma len_slice_to {A} (n : Z) (l : list A) :
  0 <= n -> len (slice_to n l) = Z.min n (len l).
Proof.
  intros Hn. rewrite slice_to_nonneg by exact Hn.
  unfold len. rewrite length_firstn. lia.
Qed.

Lemma slice_to_short {A} (n : Z) (l : list A) :
  len l <= n -> slice_to n l = l.
Proof.
  intros Hl. unfold len in Hl. rewrite slice_to_nonneg by lia.
  apply firstn_all2. lia.
Qed.

(** ** The element tree *)

Lemma in_iter (t : str) (root e : Element) :
  In e (iter t root) <-> (e = root \/ below root e) /\ tag e = t.
Proof.
  revert e. induction root as [t' a cs IH] using Element_children_ind.
  intros e. simpl. rewrite in_app_iff, in_flat_map. split.
  - intros [Hself | [c [Hc Hin]]].
    + destruct (str_eqb t' t) eqn:E; [| destruct Hself].
      destruct Hself as [<- | []]. apply str_eqb_eq in E. simpl. auto.
    + rewrite Forall_forall in IH. apply (IH c Hc) in Hin.
      destruct Hin as [[-> | Hbelow] Htag]; split; try exact Htag; right.
      * apply below_child. exact Hc.
      * apply below_deeper with c; assumption.
  - intros [[-> | Hbelow] Htag].
    + left. simpl in Htag. subst t'. rewrite str_eqb_refl. left. reflexivity.
    + right. rewrite Forall_forall in IH.
      inversion Hbelow as [e' Hc | c e' Hc Hdeep]; subst.
      * exists e. split; [exact Hc |]. apply (IH e Hc). auto.
      * exists c. split; [exact Hc |]. apply (IH c Hc). auto.
Qed.

Lemma in_select_descendant (t : str) (root e : Element) :
  In e (select_descendant t root) <-> below root e /\ tag e = t.
Proof.
  unfold select_descendant. rewrite in_flat_map. split.
  - intros [c [Hc Hin]]. apply in_iter in Hin.
    destruct Hin as [[-> | Hbelow] Htag]; split; try exact Htag.
    + apply below_child. exact Hc.
    + apply below_deeper with c; assumption.
  - intros [Hbelow Htag].
    inversion Hbelow as [e' Hc | c e' Hc Hdeep]; subst.
    + exists e. split; [exact Hc |]. apply in_iter. auto.
    + exists c. split; [exact Hc |]. apply in_iter. auto.
Qed.

Lemma has_attr_true (key : str) (e : Element) :
  has_attr key e = true <-> get e key <> None.
Proof.
  unfold has_attr. destruct (get e key); split; congruence.
Qed.

(** What [findall] with the path [.//tei:persname[@ref]] returns: the
    elements strictly below the root, at any depth, whose tag is the one
    the path names and that carry the attribute. *)
Lemma in_findall_persname (root e : Element) :
  In e (findall_persname root) <->
  below root e /\ tag e = persname_tag /\ get e (lit "ref") <> None.
Proof.
  unfold findall_persname, findall_descendant_attr.
  rewrite filter_In, in_select_descendant, has_attr_true. tauto.
Qed.

(** ** extract_referenced_persons *)

Lemma set_all_app (ks1 ks2 : list str) (persons : dict Z) :
  set_all (ks1 ++ ks2) persons = set_all ks2 (set_all ks1 persons).
Proof. unfold set_all. apply fold_left_app. Qed.

Lemma count_loop_spec (l : list Element) (persons : dict Z) :
  Forall (fun e => get e (lit "ref") <> None) l ->
  for_each l count_person persons =
  Ok (set_all (map (slice_to 9)
                 (flat_map (fun e => match get e (lit "ref") with
                                     | Some ref => [ref]
                                     | None => []
                                     end) l)) persons).
Proof.
  intros Hl. revert persons. induction Hl as [| e l He Hl IH]; intros persons.
  - reflexivity.
  - simpl. unfold count_person at 1.
    destruct (get e (lit "ref")) as [ref |]; [| congruence].
    simpl. apply IH.
Qed.

Lemma extract_document_spec (root : Element) (persons : dict Z) :
  for_each (findall_persname root) count_person persons =
  Ok (set_all (person_keys root) persons).
Proof.
  apply count_loop_spec. apply Forall_forall.
  intros e He. apply in_findall_persname in He. tauto.
Qed.

Section Extract.

Variable fromstring : str -> result Element.

Lemma extract_loop_spec (xml_files : list str) (persons : dict Z) :
  for_each xml_files (extract_file fromstring) persons =
  (roots <- parse_all fromstring xml_files ;;
   Ok (set_all (flat_map person_keys roots) persons)).
Proof.
  revert persons. induction xml_files as [| file rest IH]; intros persons.
  - reflexivity.
  - simpl. unfold extract_file at 1.
    destruct (fromstring file) as [root | e]; simpl; [| reflexivity].
    rewrite extract_document_spec. simpl. rewrite IH.
    destruct (parse_all fromstring rest) as [roots | e]; simpl; [| reflexivity].
    rewrite set_all_app. reflexivity.
Qed.

(** The mapping returned: every key visited is set to 1, in the order of
    the documents and, within one, in document order. *)
Lemma extract_referenced_persons_spec (xml_files : list str) :
  extract_referenced_persons fromstring xml_files =
  (roots <- parse_all fromstring xml_files ;;
   Ok (set_all (flat_map person_keys roots) [])).
Proof. apply extract_loop_spec. Qed.

Lemma parse_all_Ok (xml_files : list str) (roots : list Element) :
  parse_all fromstring xml_files = Ok roots ->
  Forall2 (fun file root => fromstring file = Ok root) xml_files roots.
Proof.
  revert roots. induction xml_files as [| file rest IH]; simpl; intros roots H.
  - injection H as <-. constructor.
  - apply bind_Ok_inv in H. destruct H as [root [Hroot H]].
    apply bind_Ok_inv in H. destruct H as [roots' [Hroots H]].
    injection H as <-. constructor; [exact Hroot | apply IH; exact Hroots].
Qed.

Lemma parse_all_total (xml_files : list str) :
  (forall file, In file xml_files -> exists root, fromstring file = Ok root) ->
  exists roots, parse_all fromstring xml_files = Ok roots.
Proof.
  induction xml_files as [| file rest IH]; simpl; intros Hall.
  - eexists. reflexivity.
  - destruct (Hall file) as [root Hroot]; [left; reflexivity |].
    destruct IH as [roots Hroots]; [intros f Hf; apply Hall; right; exact Hf |].
    rewrite Hroot, Hroots. simpl. eexists. reflexivity.
Qed.

End Extract.

Lemma in_keys_set_all (ks : list str) (persons : dict Z) (k : str) :
  In k (keys (set_all ks persons)) <-> In k (keys persons) \/ In k ks.
Proof.
  revert persons. induction ks as [| k0 ks IH]; intros persons; simpl.
  - tauto.
  - unfold set_all in *. simpl. rewrite IH, keys_dict_set.
    split; [intros [[H | H] | H] | intros [H | [H | H]]]; auto.
Qed.

Lemma NoDup_keys_set_all (ks : list str) (persons : dict Z) :
  NoDup (keys persons) -> NoDup (keys (set_all ks persons)).
Proof.
  revert persons. induction ks as [| k0 ks IH]; intros persons Hnd; simpl.
  - exact Hnd.
  - apply IH. apply NoDup_keys_dict_set. exact Hnd.
Qed.

Lemma values_set_all (ks : list str) (persons : dict Z) :
  Forall (fun kv => snd kv = 1) persons ->
  Forall (fun kv => snd kv = 1) (set_all ks persons).
Proof.
  revert persons. induction ks as [| k0 ks IH]; intros persons Hd; simpl.
  - exact Hd.
  - apply IH. apply (values_dict_set (fun v => v = 1)); [reflexivity | exact Hd].
Qed.

(** ** sorted *)

Lemma insert_desc_perm {A} (key : A -> Z) (x : A) (l : list A) :
  Permutation (x :: l) (insert_desc key x l).
Proof.
  induction l as [| y l IH]; simpl.
  - apply Permutation_refl.
  - destruct (key x <? key y).
    + eapply perm_trans; [apply perm_swap | apply perm_skip, IH].
    + apply Permutation_refl.
Qed.

Lemma sorted_desc_perm {A} (key : A -> Z) (l : list A) :
  Permutation l (sorted_desc key l).
Proof.
  induction l as [| x l IH]; simpl.
  - constructor.
  - eapply perm_trans; [apply perm_skip, IH | apply insert_desc_perm].
Qed.

Lemma insert_desc_sorted {A} (key : A -> Z) (x : A) (l : list A) :
  StronglySorted (desc key) l -> StronglySorted (desc key) (insert_desc key x l).
Proof.
  induction 1 as [| y l Hl IH Hy]; simpl.
  - constructor; constructor.
  - destruct (key x <? key y) eqn:E.
    + apply Z.ltb_lt in E. constructor; [exact IH |].
      apply Forall_forall. intros z Hz.
      apply (Permutation_in _ (Permutation_sym (insert_desc_perm key x l))) in Hz.
      destruct Hz as [<- | Hz]; [unfold desc; lia |].
      rewrite Forall_forall in Hy. apply Hy. exact Hz.
    + apply Z.ltb_ge in E. constructor; [constructor; assumption |].
      constructor; [exact E |].
      apply Forall_forall. intros z Hz. rewrite Forall_forall in Hy.
      specialize (Hy z Hz). unfold desc in *. lia.
Qed.

Lemma sorted_desc_sorted {A} (key : A -> Z) (l : list A) :
  StronglySorted (desc key) (sorted_desc key l).
Proof.
  induction l as [| x l IH]; simpl.
  - constructor.
  - apply insert_desc_sorted. exact IH.
Qed.

(** Insertion passes only items with a strictly larger key, so the items of
    one key keep their order. *)
Lemma insert_desc_stable {A} (key : A -> Z) (c : Z) (x : A) (l : list A) :
  with_key key c (insert_desc key x l) = with_key key c (x :: l).
Proof.
  unfold with_key. induction l as [| y l IH]; simpl.
  - reflexivity.
  - destruct (key x <? key y) eqn:E; [| reflexivity].
    apply Z.ltb_lt in E. simpl. rewrite IH. simpl.
    destruct (key x =? c) eqn:Ex; destruct (key y =? c) eqn:Ey; try reflexivity.
    apply Z.eqb_eq in Ex. apply Z.eqb_eq in Ey. lia.
Qed.

Lemma sorted_desc_stable {A} (key : A -> Z) (c : Z) (l : list A) :
  with_key key c (sorted_desc key l) = with_key key c l.
Proof.
  induction l as [| x l IH]; simpl.
  - reflexivity.
  - rewrite insert_desc_stable. unfold with_key in *. simpl. rewrite IH.
    reflexivity.
Qed.

Lemma firstn_sorted {A} (R : A -> A -> Prop) (k : nat) (l : list A) :
  StronglySorted R l -> StronglySorted R (firstn k l).
Proof.
  intros Hl. revert k. induction Hl as [| x l Hl IH Hx]; intros [| k]; simpl;
    try constructor.
  - apply IH.
  - apply Forall_forall. intros y Hy. rewrite Forall_forall in Hx.
    apply Hx. rewrite <- (firstn_skipn k l). apply in_or_app. left. exact Hy.
Qed.

Lemma with_key_firstn {A} (key : A -> Z) (c : Z) (k : nat) (l : list A) :
  initial (with_key key c (firstn k l)) (with_key key c l).
Proof.
  exists (with_key key c (skipn k l)). unfold with_key.
  rewrite <- filter_app, firstn_skipn. reflexivity.
Qed.

(** ** get_top_persons *)

Lemma get_top_persons_Ok (references : dict Z) (db : list record) (n : Z)
  (top : list entry) :
  get_top_persons references db n = Ok top <->
  exists joined, join references db = Ok joined
                 /\ top = slice_to n (sorted_desc entry_count joined).
Proof.
  unfold get_top_persons. split.
  - intros H. apply bind_Ok_inv in H. destruct H as [joined [Hj H]].
    exists joined. split; [exact Hj | congruence].
  - intros [joined [Hj ->]]. rewrite Hj. reflexivity.
Qed.

(** The number of entries returned for a requested [n] that is not
    negative. *)
Lemma get_top_persons_length (references : dict Z) (db : list record) (n : Z)
  (top joined : list entry) :
  0 <= n -> join references db = Ok joined ->
  get_top_persons references db n = Ok top ->
  len top = Z.min n (len joined).
Proof.
  intros Hn Hj Htop. apply get_top_persons_Ok in Htop.
  destruct Htop as [joined' [Hj' ->]].
  assert (joined' = joined) as -> by congruence.
  rewrite len_slice_to by exact Hn. unfold len.
  rewrite <- (Permutation_length (sorted_desc_perm entry_count joined)).
  reflexivity.
Qed.

Lemma for_each_raise_inv {A S} (P : exn -> Prop) (l : list A)
  (body : A -> S -> result S) (s : S) (e : exn) :
  (forall x s' e', In x l -> body x s' = Raise e' -> P e') ->
  for_each l body s = Raise e -> P e.
Proof.
  revert s. induction l as [| x l IH]; simpl; intros s Hbody H.
  - discriminate H.
  - destruct (body x s) as [s' | e'] eqn:E; simpl in H.
    + apply (IH s'); [| exact H]. intros y s0 e0 Hy. apply Hbody. right. exact Hy.
    + injection H as <-. apply (Hbody x s); [left; reflexivity | exact E].
Qed.

Lemma for_each_must_raise {A S} (l : list A) (body : A -> S -> result S)
  (s : S) (x : A) :
  In x l -> (forall s', exists e, body x s' = Raise e) ->
  exists e, for_each l body s = Raise e.
Proof.
  revert s. induction l as [| y l IH]; simpl; intros s Hin Hx.
  - destruct Hin.
  - destruct (body y s) as [s' | e'] eqn:E; simpl.
    + destruct Hin as [-> | Hin].
      * destruct (Hx s) as [e He]. congruence.
      * apply IH; assumption.
    + exists e'. reflexivity.
Qed.

Lemma getitem_raise {V} (d : dict V) (k : str) (e : exn) :
  getitem d k = Raise e -> e = KeyError k /\ dict_get d k = None.
Proof.
  unfold getitem. destruct (dict_get d k); [discriminate |].
  intros H. injection H as <-. auto.
Qed.

Lemma join_record_raise (person_id : str) (count : Z) (person : record)
  (acc : list entry) (e : exn) :
  join_record person_id count person acc = Raise e -> is_KeyError e.
Proof.
  unfold join_record.
  destruct (getitem person (lit "name")) as [name |] eqn:En; simpl.
  - destruct (str_eqb name person_id); [| discriminate].
    destruct (getitem person (lit "id")) as [id |] eqn:Ei; simpl; [discriminate |].
    intros H. injection H as <-. apply getitem_raise in Ei.
    eexists. apply Ei.
  - intros H. injection H as <-. apply getitem_raise in En. eexists. apply En.
Qed.

Lemma join_raise (references : dict Z) (db : list record) (e : exn) :
  join references db = Raise e -> is_KeyError e.
Proof.
  unfold join. apply for_each_raise_inv.
  intros item acc e' _. unfold join_reference. apply for_each_raise_inv.
  intros person acc' e'' _. apply join_record_raise.
Qed.

Lemma in_keys_item {V} (d : dict V) (k : str) :
  In k (keys d) -> exists v, In (k, v) d.
Proof.
  unfold keys. rewrite in_map_iff. intros [[k' v] [E H]]. simpl in E. subst k'.
  exists v. exact H.
Qed.

(** ** The counting of references (sections 3 and 4.2 of the specification) *)

(** Every count of the mapping returned is 1, however often a key
    occurred: [persons[ref] = 1] assigns, it does not add. *)
Lemma extract_counts_one (fromstring : str -> result Element)
  (xml_files : list str) (persons : dict Z) :
  extract_referenced_persons fromstring xml_files = Ok persons ->
  Forall (fun kv => snd kv = 1) persons.
Proof.
  rewrite extract_referenced_persons_spec. intros H.
  apply bind_Ok_inv in H. destruct H as [roots [_ H]]. injection H as <-.
  apply values_set_all. constructor.
Qed.

(** The keys of the mapping are distinct, as those of a dict are. *)
Lemma extract_keys_NoDup (fromstring : str -> result Element)
  (xml_files : list str) (persons : dict Z) :
  extract_referenced_persons fromstring xml_files = Ok persons ->
  NoDup (keys persons).
Proof.
  rewrite extract_referenced_persons_spec. intros H.
  apply bind_Ok_inv in H. destruct H as [roots [_ H]]. injection H as <-.
  apply NoDup_keys_set_all. constructor.
Qed.

(** The counting key of a raw value is its first nine characters, and the
    value itself when it has at most nine. *)
Lemma counting_key_firstn (ref : str) : slice_to 9 ref = firstn 9 ref.
Proof. reflexivity. Qed.

Lemma counting_key_short (ref : str) :
  (length ref <= 9)%nat -> slice_to 9 ref = ref.
Proof. intros H. apply slice_to_short. unfold len. lia. Qed.

Lemma counting_key_length (ref : str) : (length (slice_to 9 ref) <= 9)%nat.
Proof. rewrite counting_key_firstn. apply firstn_le_length. Qed.

(** A key of the mapping is the first nine characters of the [ref] value of
    an element below the root of one of the documents, with the tag the
    path names; and every such element gives a key. *)
Lemma extract_keys (fromstring : str -> result Element)
  (xml_files : list str) (persons : dict Z) :
  extract_referenced_persons fromstring xml_files = Ok persons ->
  exists roots,
    Forall2 (fun file root => fromstring file = Ok root) xml_files roots
    /\ forall k, In k (keys persons) <->
                 exists root e ref,
                   In root roots /\ below root e /\ tag e = persname_tag
                   /\ get e (lit "ref") = Some ref /\ k = slice_to 9 ref.
Proof.
  rewrite extract_referenced_persons_spec. intros H.
  apply bind_Ok_inv in H. destruct H as [roots [Hroots H]]. injection H as <-.
  exists roots. split; [apply parse_all_Ok; exact Hroots |].
  intros k. rewrite in_keys_set_all. simpl. rewrite in_flat_map. split.
  - intros [[] | [root [Hroot Hk]]].
    unfold person_keys, person_refs in Hk. apply in_map_iff in Hk.
    destruct Hk as [ref [<- Href]]. apply in_flat_map in Href.
    destruct Href as [e [He Href]]. apply in_findall_persname in He.
    destruct He as [Hbelow [Htag _]].
    destruct (get e (lit "ref")) as [ref' |] eqn:E; [| destruct Href].
    destruct Href as [-> | []]. exists root, e, ref. auto.
  - intros [root [e [ref [Hroot [Hbelow [Htag [Href ->]]]]]]].
    right. exists root. split; [exact Hroot |].
    unfold person_keys, person_refs. apply in_map. apply in_flat_map.
    exists e. split.
    + apply in_findall_persname. rewrite Href. repeat split; auto. discriminate.
    + rewrite Href. left. reflexivity.
Qed.

(** C1. The specification has each occurrence of a reference add 1 to the
    count of its CanonicalID. The program does not: for a document with two
    references to P000123456, and for two such documents (four
    references), the count returned for P00012345 is 1. *)
Theorem extract_referenced_persons_overwrites :
  count_occ str_eq_dec (person_keys Samples.twice_root) (lit "P00012345") = 2%nat
  /\ extract_referenced_persons Samples.fromstring [Samples.twice_text]
     = Ok [(lit "P00012345", 1)]
  /\ extract_referenced_persons Samples.fromstring
       [Samples.twice_text; Samples.twice_text]
     = Ok [(lit "P00012345", 1)].
Proof. repeat split; vm_compute; reflexivity. Qed.

(** C6. The counting key is the first nine characters of the raw value, but
    the count of two raw identifiers that share them is not the sum of
    their occurrences: for one reference to P000123456 and one to
    P000123457 the mapping returned has the single key P00012345 with the
    count 1, not 2. *)
Theorem extract_referenced_persons_collapse_not_summed :
  lit "P000123456" <> lit "P000123457"
  /\ slice_to 9 (lit "P000123456") = lit "P00012345"
  /\ slice_to 9 (lit "P000123457") = lit "P00012345"
  /\ person_refs Samples.collapse_root = [lit "P000123456"; lit "P000123457"]
  /\ extract_referenced_persons Samples.fromstring [Samples.collapse_text]
     = Ok [(lit "P00012345", 1)].
Proof. repeat split; try (vm_compute; reflexivity). discriminate. Qed.

(** C7, as the specification states it, fails: the only element that the
    path selects in this document has an empty [ref], and it is counted,
    under the empty key. *)
Lemma empty_ref_is_counted :
  findall_persname Samples.empty_root = [Samples.person "persname" ""]
  /\ get (Samples.person "persname" "") (lit "ref") = Some []
  /\ extract_referenced_persons Samples.fromstring [Samples.empty_text]
     = Ok [([], 1)]
  /\ extract_referenced_persons Samples.fromstring [Samples.empty_text]
     <> Ok [].
Proof. repeat split; try (vm_compute; reflexivity). discriminate. Qed.

(** C7, amended. When every document parses, the extraction returns a
    mapping. An element without the [ref] attribute gives no key: the keys
    are those of the elements that carry one. An element whose [ref] is
    empty is among these, and the empty string is then a key. *)
Theorem extract_skips_absent_ref_keeps_empty
  (fromstring : str -> result Element) (xml_files : list str) :
  (forall file, In file xml_files -> exists root, fromstring file = Ok root) ->
  exists persons roots,
    extract_referenced_persons fromstring xml_files = Ok persons
    /\ Forall2 (fun file root => fromstring file = Ok root) xml_files roots
    /\ (forall k, In k (keys persons) ->
                  exists root e ref,
                    In root roots /\ below root e /\ tag e = persname_tag
                    /\ get e (lit "ref") = Some ref /\ k = slice_to 9 ref)
    /\ (forall root e,
          In root roots -> below root e -> tag e = persname_tag ->
          get e (lit "ref") = Some [] -> In [] (keys persons)).
Proof.
  intros Hparse.
  destruct (parse_all_total fromstring xml_files Hparse) as [roots Hroots].
  assert (Hex : extract_referenced_persons fromstring xml_files
                = Ok (set_all (flat_map person_keys roots) [])).
  { rewrite extract_referenced_persons_spec, Hroots. reflexivity. }
  destruct (extract_keys fromstring xml_files _ Hex) as [roots' [Hall Hkeys]].
  exists (set_all (flat_map person_keys roots) []), roots'.
  split; [exact Hex |]. split; [exact Hall |]. split.
  - intros k Hk. apply Hkeys. exact Hk.
  - intros root e Hroot Hbelow Htag Href. apply Hkeys.
    exists root, e, []. auto.
Qed.

Lemma extract_skips_absent_ref_keeps_empty_witness :
  (forall file, In file [Samples.empty_text] ->
                exists root, Samples.fromstring file = Ok root)
  /\ exists persons roots,
       extract_referenced_persons Samples.fromstring [Samples.empty_text]
       = Ok persons
       /\ Forall2 (fun file root => Samples.fromstring file = Ok root)
            [Samples.empty_text] roots
       /\ (forall k, In k (keys persons) ->
                     exists root e ref,
                       In root roots /\ below root e /\ tag e = persname_tag
                       /\ get e (lit "ref") = Some ref /\ k = slice_to 9 ref)
       /\ (forall root e,
             In root roots -> below root e -> tag e = persname_tag ->
             get e (lit "ref") = Some [] -> In [] (keys persons)).
Proof.
  assert (H : forall file, In file [Samples.empty_text] ->
                           exists root, Samples.fromstring file = Ok root).
  { intros file [<- | []]. exists Samples.empty_root. vm_compute. reflexivity. }
  split; [exact H |].
  apply (extract_skips_absent_ref_keeps_empty Samples.fromstring
           [Samples.empty_text] H).
Defined.

(** ** The search of the element tree (section 4.2) *)

(** C5. The specification has every person reference of a document found,
    and for Scenario A the line for Rudolf with 2 references printed. The
    program does not find them: its path names the tag [persname], which
    is not the tag [persName] of the elements (tags are compared character
    by character), so it selects none of the three [persName] elements that
    lie below the root with a [ref], counts no reference and the top-1
    ranking has no line. *)
Lemma scenarioA_prints_no_line :
  persname_tag = Samples.tei "persname"
  /\ Samples.tei "persName" <> persname_tag
  /\ (forall e,
        In e [Samples.person "persName" "P000123456";
              Samples.person "persName" "P0001234-x";
              Samples.person "persName" "P000123456"] ->
        below Samples.scenarioA_root e
        /\ tag e = Samples.tei "persName"
        /\ get e (lit "ref") <> None)
  /\ findall_persname Samples.scenarioA_root = []
  /\ extract_referenced_persons Samples.fromstring [Samples.scenarioA_text]
     = Ok []
  /\ (persons <- extract_referenced_persons Samples.fromstring
                   [Samples.scenarioA_text] ;;
      top_names <- get_top_persons persons Samples.scenarioA_db 1 ;;
      Ok (map line top_names)) = Ok []
  /\ (persons <- extract_referenced_persons Samples.fromstring
                   [Samples.scenarioA_text] ;;
      top_names <- get_top_persons persons Samples.scenarioA_db 1 ;;
      Ok (map line top_names))
     <> Ok [lit "Rudolf (P000123456) - 2 Referenzen"].
Proof.
  split; [vm_compute; reflexivity |].
  split; [vm_compute; discriminate |].
  split.
  - intros e He.
    assert (Hbelow : below Samples.scenarioA_root e).
    { apply below_deeper with
        (Elem (Samples.tei "p") []
           [Samples.person "persName" "P000123456";
            Samples.person "persName" "P0001234-x";
            Samples.person "persName" "P000123456"]).
      - left. reflexivity.
      - apply below_child. exact He. }
    split; [exact Hbelow |].
    destruct He as [<- | [<- | [<- | []]]]; split;
      try reflexivity; vm_compute; discriminate.
  - repeat split; try (vm_compute; reflexivity). vm_compute. discriminate.
Qed.

(** ** load_data (section 4.1) *)

Lemma read_files_raises (file_list : directory) (xml_files : list str) :
  exists e, read_files file_list xml_files = Raise e.
Proof.
  revert xml_files. induction file_list as [| [name text] rest IH];
    intros xml_files; simpl.
  - exists StopIteration. reflexivity.
  - destruct text as [text | e]; simpl; [apply IH | exists e; reflexivity].
Qed.

(** When every matching file can be read the loop ends in the
    [StopIteration] of [next]. *)
Lemma read_files_StopIteration (file_list : directory) (xml_files : list str) :
  Forall (fun f => exists text, snd f = Ok text) file_list ->
  read_files file_list xml_files = Raise StopIteration.
Proof.
  intros Hall. revert xml_files.
  induction Hall as [| [name text] rest [t Ht] Hall IH]; intros xml_files; simpl.
  - reflexivity.
  - simpl in Ht. subst text. simpl. apply IH.
Qed.

Lemma load_data_StopIteration (json_loads : str -> result (list record))
  (data_dir : directory) (db_file : str) :
  Forall (fun f => exists text, snd f = Ok text)
         (glob data_dir (lit "*-1.xml")) ->
  load_data json_loads data_dir db_file = Raise StopIteration.
Proof.
  intros Hall. unfold load_data.
  rewrite (read_files_StopIteration _ [] Hall). reflexivity.
Qed.

(** C2. The specification has [load_data] return the contents of all
    matching files and the dump. The program never returns from it: the
    loop ends only by the exception of [next] on the exhausted generator,
    which leaves [load_data]. For a directory with two matching files, and
    for one with none, that exception is [StopIteration]. *)
Theorem load_data_never_returns :
  (forall (json_loads : str -> result (list record)) (data_dir : directory)
          (db_file : str),
      exists e, load_data json_loads data_dir db_file = Raise e)
  /\ map fst (glob Samples.two_files (lit "*-1.xml"))
     = [lit "a-1.xml"; lit "b-1.xml"]
  /\ load_data Samples.json_loads Samples.two_files DB_FILE
     = Raise StopIteration
  /\ load_data Samples.json_loads [(lit "persons.json", Ok (lit "[]"))] DB_FILE
     = Raise StopIteration.
Proof.
  split; [| repeat split; vm_compute; reflexivity].
  intros json_loads data_dir db_file. unfold load_data.
  destruct (read_files_raises (glob data_dir (lit "*-1.xml")) []) as [e He].
  exists e. rewrite He. reflexivity.
Qed.

(** ** get_top_persons (section 4.3) *)

(** C3. The specification joins a referenced CanonicalID with the record
    whose identifier equals it. The program compares it with the record's
    name: the reference to P00012345 is dropped although the record with
    that identifier is in the dump, and a key that spells the name is
    joined. *)
Theorem get_top_persons_joins_on_name :
  get_top_persons [(lit "P00012345", 2)] Samples.rudolf_db 1 = Ok []
  /\ get_top_persons [(lit "Rudolf", 2)] Samples.rudolf_db 1
     = Ok [(lit "Rudolf", lit "P00012345", 2)].
Proof. split; vm_compute; reflexivity. Qed.

(** C4. With two referenced CanonicalIDs, both resolvable by identifier,
    and 5 entries requested, the specification has min(5, 2) = 2 entries
    returned. The program returns none. *)
Theorem get_top_persons_misses_resolvable :
  Samples.spec_resolvable Samples.two_references Samples.two_db
  = [lit "P00012345"; lit "P00067890"]
  /\ get_top_persons Samples.two_references Samples.two_db 5 = Ok []
  /\ len (@nil entry)
     <> Z.min 5 (len (Samples.spec_resolvable Samples.two_references
                        Samples.two_db)).
Proof. repeat split; try (vm_compute; reflexivity). vm_compute. discriminate. Qed.

(** C8. The ranking returned is sorted by count, largest first; entries of
    equal count stand in the order in which the join produced them (the
    order of the mapping's items, then of the dump), which fixes the order
    of ties; and the ranking is a function of the mapping and the dump. *)
Theorem get_top_persons_sorted (references : dict Z) (db : list record)
  (n : Z) (top : list entry) :
  get_top_persons references db n = Ok top ->
  StronglySorted (desc entry_count) top
  /\ (exists joined,
        join references db = Ok joined
        /\ forall c, initial (with_key entry_count c top)
                             (with_key entry_count c joined))
  /\ (forall top', get_top_persons references db n = Ok top' -> top' = top).
Proof.
  intros Htop. split; [| split].
  - apply get_top_persons_Ok in Htop. destruct Htop as [joined [_ ->]].
    destruct (slice_to_firstn n (sorted_desc entry_count joined)) as [k ->].
    apply firstn_sorted. apply sorted_desc_sorted.
  - apply get_top_persons_Ok in Htop. destruct Htop as [joined [Hj ->]].
    exists joined. split; [exact Hj |]. intros c.
    destruct (slice_to_firstn n (sorted_desc entry_count joined)) as [k ->].
    rewrite <- (sorted_desc_stable entry_count c joined).
    apply with_key_firstn.
  - intros top' Htop'. congruence.
Qed.

Lemma get_top_persons_sorted_witness :
  get_top_persons Samples.three_references Samples.three_db 2
  = Ok [(lit "Rudolf", lit "P00000002", 3); (lit "Anna", lit "P00000001", 1)]
  /\ StronglySorted (desc entry_count)
       [(lit "Rudolf", lit "P00000002", 3); (lit "Anna", lit "P00000001", 1)].
Proof.
  assert (Htop : get_top_persons Samples.three_references Samples.three_db 2
                 = Ok [(lit "Rudolf", lit "P00000002", 3);
                       (lit "Anna", lit "P00000001", 1)]).
  { vm_compute. reflexivity. }
  split; [exact Htop |].
  apply (get_top_persons_sorted Samples.three_references Samples.three_db 2 _
           Htop).
Defined.

(** C10. A record of the dump whose name equals a key of the mapping and
    that has no key [id] makes [get_top_persons] raise a [KeyError]; so the
    call returns only if every such record has the key [id]. *)
Theorem get_top_persons_KeyError_without_id (references : dict Z)
  (db : list record) (n : Z) (person : record) (person_id : str) :
  In person db ->
  dict_get person (lit "name") = Some person_id ->
  In person_id (keys references) ->
  dict_get person (lit "id") = None ->
  (exists key, get_top_persons references db n = Raise (KeyError key))
  /\ (forall top, get_top_persons references db n <> Ok top).
Proof.
  intros Hdb Hname Hkey Hid.
  cut (exists key, get_top_persons references db n = Raise (KeyError key)).
  { intros [key Hraise]. split; [exists key; exact Hraise |].
    intros top Htop. rewrite Hraise in Htop. discriminate Htop. }
  apply in_keys_item in Hkey. destruct Hkey as [count Hitem].
  assert (Hrec : forall acc, exists e,
             join_record person_id count person acc = Raise e).
  { intros acc. exists (KeyError (lit "id")). unfold join_record, getitem.
    rewrite Hname. simpl. rewrite str_eqb_refl, Hid. reflexivity. }
  assert (Href : forall acc, exists e,
             join_reference db (person_id, count) acc = Raise e).
  { intros acc. unfold join_reference. simpl.
    apply (for_each_must_raise db _ acc person Hdb Hrec). }
  destruct (for_each_must_raise references (join_reference db) []
              (person_id, count) Hitem Href) as [e He].
  destruct (join_raise references db e He) as [key ->].
  exists key. unfold get_top_persons. unfold join in He. unfold join.
  rewrite He. reflexivity.
Qed.

Lemma get_top_persons_KeyError_without_id_witness :
  In (Samples.dump_record "P00012345" "Rudolf")
     [Samples.dump_record "P00012345" "Rudolf"]
  /\ dict_get (Samples.dump_record "P00012345" "Rudolf") (lit "name")
     = Some (lit "Rudolf")
  /\ In (lit "Rudolf") (keys [(lit "Rudolf", 2)])
  /\ dict_get (Samples.dump_record "P00012345" "Rudolf") (lit "id") = None
  /\ (exists key,
        get_top_persons [(lit "Rudolf", 2)]
          [Samples.dump_record "P00012345" "Rudolf"] 1
        = Raise (KeyError key))
  /\ (forall top,
        get_top_persons [(lit "Rudolf", 2)]
          [Samples.dump_record "P00012345" "Rudolf"] 1
        <> Ok top).
Proof.
  assert (H1 : In (Samples.dump_record "P00012345" "Rudolf")
                  [Samples.dump_record "P00012345" "Rudolf"])
    by (left; reflexivity).
  assert (H2 : dict_get (Samples.dump_record "P00012345" "Rudolf") (lit "name")
               = Some (lit "Rudolf")) by (vm_compute; reflexivity).
  assert (H3 : In (lit "Rudolf") (keys [(lit "Rudolf", 2)]))
    by (left; reflexivity).
  assert (H4 : dict_get (Samples.dump_record "P00012345" "Rudolf") (lit "id")
               = None) by (vm_compute; reflexivity).
  split; [exact H1 |]. split; [exact H2 |]. split; [exact H3 |].
  split; [exact H4 |].
  apply (get_top_persons_KeyError_without_id [(lit "Rudolf", 2)]
           [Samples.dump_record "P00012345" "Rudolf"] 1
           (Samples.dump_record "P00012345" "Rudolf") (lit "Rudolf")
           H1 H2 H3 H4).
Defined.

(** ** main (section 4.4) *)

(** Whatever [top_n] is, a run that prints starts with the header for
    [TOP] and goes on with [top_n] lines. *)
Lemma main_body_lines (fromstring : str -> result Element) (top_n : Z)
  (xml_files : list str) (db_dump : list record) (lines : list str) :
  main_body fromstring top_n xml_files db_dump = Ok lines ->
  exists top_names, lines = header :: map line top_names
                    /\ len top_names = top_n.
Proof.
  unfold main_body. intros H.
  apply bind_Ok_inv in H. destruct H as [u1 [_ H]].
  apply bind_Ok_inv in H. destruct H as [persons [_ H]].
  apply bind_Ok_inv in H. destruct H as [top_names [_ H]].
  apply bind_Ok_inv in H. destruct H as [u2 [Hlen H]].
  apply bind_Ok_inv in H. destruct H as [top [_ H]].
  apply bind_Ok_inv in H. destruct H as [u3 [_ H]].
  injection H as <-. exists top_names. split; [reflexivity |].
  unfold assert in Hlen. destruct (len top_names =? top_n) eqn:E;
    [apply Z.eqb_eq; exact E | discriminate].
Qed.

(** C9. The specification has the header state the requested N. The
    program formats the constant [TOP]: called for the top 1, with the
    eighteen documents and a dump that pass its assertions, it prints a
    header for 10 and one line. (Run from [main], the call does not get
    that far: [load_data] raises.) *)
Theorem main_header_states_TOP :
  main_body Samples.fromstring 1 (repeat Samples.rudolf_text 18)
    Samples.rudolf_db
  = Ok [lit "Die 10 am h" ++ [228%N]
          ++ lit "ufigsten referenzierten Personen sind:";
        lit "Rudolf (P00012345) - 1 Referenzen"]
  /\ main Samples.fromstring Samples.json_loads Samples.eighteen_files 1
     = Raise StopIteration.
Proof. split; vm_compute; reflexivity. Qed.

(** * Further properties of the program *)

(** ** The join of get_top_persons *)

Lemma for_each_appends {A B} (l : list A)
  (body : A -> list B -> result (list B)) (f : A -> list B)
  (acc acc' : list B) :
  (forall x a a', In x l -> body x a = Ok a' -> a' = a ++ f x) ->
  for_each l body acc = Ok acc' -> acc' = acc ++ flat_map f l.
Proof.
  revert acc. induction l as [| x l IH]; simpl; intros acc Hbody H.
  - injection H as <-. rewrite app_nil_r. reflexivity.
  - apply bind_Ok_inv in H. destruct H as [a [Hx H]].
    apply Hbody in Hx; [| left; reflexivity]. subst a.
    apply IH in H; [| intros y a a' Hy; apply Hbody; right; exact Hy].
    rewrite H, <- app_assoc. reflexivity.
Qed.

Lemma fold_left_appends {A B} (l : list A) (f : A -> list B) (acc : list B) :
  fold_left (fun a x => a ++ f x) l acc = acc ++ flat_map f l.
Proof.
  revert acc. induction l as [| x l IH]; simpl; intros acc.
  - rewrite app_nil_r. reflexivity.
  - rewrite IH, <- app_assoc. reflexivity.
Qed.

Lemma join_record_Ok (person_id : str) (count : Z) (person : record)
  (acc acc' : list entry) :
  join_record person_id count person acc = Ok acc' ->
  acc' = acc ++ matches_of (person_id, count) person.
Proof.
  unfold join_record, matches_of, getitem. simpl.
  destruct (dict_get person (lit "name")) as [name |]; simpl; [| discriminate].
  destruct (str_eqb name person_id); simpl.
  - destruct (dict_get person (lit "id")) as [id |]; simpl; [| discriminate].
    intros H. injection H as <-. reflexivity.
  - intros H. injection H as <-. rewrite app_nil_r. reflexivity.
Qed.

Lemma join_record_total (person_id : str) (count : Z) (person : record)
  (acc : list entry) :
  dict_get person (lit "name") <> None ->
  (dict_get person (lit "name") = Some person_id ->
   dict_get person (lit "id") <> None) ->
  join_record person_id count person acc
  = Ok (acc ++ matches_of (person_id, count) person).
Proof.
  unfold join_record, matches_of, getitem. simpl. intros Hname Hid.
  destruct (dict_get person (lit "name")) as [name |]; [| congruence]. simpl.
  destruct (str_eqb name person_id) eqn:E; simpl.
  - apply str_eqb_eq in E. subst name.
    destruct (dict_get person (lit "id")) as [id |]; simpl; [reflexivity |].
    exfalso. apply Hid; reflexivity.
  - rewrite app_nil_r. reflexivity.
Qed.

Lemma join_Ok (references : dict Z) (db : list record) (joined : list entry) :
  join references db = Ok joined -> joined = joined_entries references db.
Proof.
  unfold join. intros H.
  apply (for_each_appends references (join_reference db)
           (fun item => flat_map (matches_of item) db)) in H; [exact H |].
  intros [person_id count] a a' _ Ha. unfold join_reference in Ha. simpl in Ha.
  apply (for_each_appends db (join_record person_id count)
           (matches_of (person_id, count))) in Ha; [exact Ha |].
  intros person b b' _. apply join_record_Ok.
Qed.

Lemma get_top_persons_Ok_eq (references : dict Z) (db : list record) (n : Z)
  (top : list entry) :
  get_top_persons references db n = Ok top ->
  top = slice_to n (sorted_desc entry_count (joined_entries references db)).
Proof.
  intros H. apply get_top_persons_Ok in H. destruct H as [joined [Hj ->]].
  apply join_Ok in Hj. subst joined. reflexivity.
Qed.

Lemma in_matches_of (item : str * Z) (person : record) (x : entry) :
  In x (matches_of item person) <->
  exists id, x = (fst item, id, snd item)
             /\ dict_get person (lit "name") = Some (fst item)
             /\ dict_get person (lit "id") = Some id.
Proof.
  unfold matches_of.
  destruct (dict_get person (lit "name")) as [name |].
  - destruct (str_eqb name (fst item)) eqn:E.
    + apply str_eqb_eq in E. subst name.
      destruct (dict_get person (lit "id")) as [id |]; simpl.
      * split.
        -- intros [<- | []]. exists id. auto.
        -- intros [id' [-> [_ Hid]]]. left. congruence.
      * split; [intros [] | intros [id' [_ [_ Hid]]]; discriminate].
    + split; [intros [] |]. intros [id [_ [Hname _]]].
      injection Hname as ->. rewrite str_eqb_refl in E. discriminate.
  - split; [intros [] | intros [id [_ [Hname _]]]; discriminate].
Qed.

Lemma in_joined_entries (references : dict Z) (db : list record)
  (name id : str) (count : Z) :
  In (name, id, count) (joined_entries references db) <->
  In (name, count) references
  /\ exists person, In person db
                    /\ dict_get person (lit "name") = Some name
                    /\ dict_get person (lit "id") = Some id.
Proof.
  unfold joined_entries. rewrite in_flat_map. split.
  - intros [[k c] [Hitem Hin]]. apply in_flat_map in Hin.
    destruct Hin as [person [Hdb Hin]]. apply in_matches_of in Hin.
    destruct Hin as [id' [Heq [Hname Hid]]]. simpl in *.
    injection Heq as -> -> ->. split; [exact Hitem |].
    exists person. auto.
  - intros [Hitem [person [Hdb [Hname Hid]]]].
    exists (name, count). split; [exact Hitem |]. apply in_flat_map.
    exists person. split; [exact Hdb |]. apply in_matches_of.
    exists id. auto.
Qed.

Lemma in_slice_to {A} (n : Z) (l : list A) (x : A) :
  In x (slice_to n l) -> In x l.
Proof.
  destruct (slice_to_firstn n l) as [k ->]. intros H.
  rewrite <- (firstn_skipn k l). apply in_or_app. left. exact H.
Qed.

(** X1. Every entry returned pairs a key of the mapping and its count with
    a record of the dump whose name is that key, and shows the record's
    [id]. *)
Theorem get_top_persons_entries (references : dict Z) (db : list record)
  (n : Z) (top : list entry) (name id : str) (count : Z) :
  get_top_persons references db n = Ok top ->
  In (name, id, count) top ->
  In (name, count) references
  /\ exists person, In person db
                    /\ dict_get person (lit "name") = Some name
                    /\ dict_get person (lit "id") = Some id.
Proof.
  intros Htop Hin. apply get_top_persons_Ok_eq in Htop. subst top.
  apply in_slice_to in Hin.
  apply (Permutation_in _ (Permutation_sym (sorted_desc_perm entry_count _)))
    in Hin.
  apply in_joined_entries. exact Hin.
Qed.

Lemma get_top_persons_entries_witness :
  get_top_persons Samples.three_references Samples.three_db 2
  = Ok [(lit "Rudolf", lit "P00000002", 3); (lit "Anna", lit "P00000001", 1)]
  /\ In (lit "Anna", lit "P00000001", 1)
       [(lit "Rudolf", lit "P00000002", 3); (lit "Anna", lit "P00000001", 1)]
  /\ In (lit "Anna", 1) Samples.three_references
  /\ exists person, In person Samples.three_db
                    /\ dict_get person (lit "name") = Some (lit "Anna")
                    /\ dict_get person (lit "id") = Some (lit "P00000001").
Proof.
  assert (Htop : get_top_persons Samples.three_references Samples.three_db 2
                 = Ok [(lit "Rudolf", lit "P00000002", 3);
                       (lit "Anna", lit "P00000001", 1)])
    by (vm_compute; reflexivity).
  assert (Hin : In (lit "Anna", lit "P00000001", 1)
                   [(lit "Rudolf", lit "P00000002", 3);
                    (lit "Anna", lit "P00000001", 1)])
    by (right; left; reflexivity).
  split; [exact Htop |]. split; [exact Hin |].
  apply (get_top_persons_entries Samples.three_references Samples.three_db 2
           _ (lit "Anna") (lit "P00000001") 1 Htop Hin).
Defined.

(** X2. When every record of the dump has a [name], and an [id] if its
    name is a key of the mapping, [get_top_persons] returns: the entries of
    the join, sorted by count with the largest first, cut to [n]. *)
Theorem get_top_persons_returns (references : dict Z) (db : list record)
  (n : Z) :
  (forall person, In person db -> dict_get person (lit "name") <> None) ->
  (forall person person_id,
      In person db -> dict_get person (lit "name") = Some person_id ->
      In person_id (keys references) ->
      dict_get person (lit "id") <> None) ->
  get_top_persons references db n
  = Ok (slice_to n (sorted_desc entry_count (joined_entries references db))).
Proof.
  intros Hname Hid. unfold get_top_persons.
  assert (Hjoin : join references db = Ok (joined_entries references db)).
  { unfold join, joined_entries.
    rewrite (for_each_total references (join_reference db)
               (fun a item => a ++ flat_map (matches_of item) db)).
    - rewrite fold_left_appends. reflexivity.
    - intros [person_id count] a Hitem. unfold join_reference. simpl.
      rewrite (for_each_total db (join_record person_id count)
                 (fun b person => b ++ matches_of (person_id, count) person)).
      + rewrite fold_left_appends. reflexivity.
      + intros person b Hdb. apply join_record_total.
        * apply Hname. exact Hdb.
        * intros Hn. apply (Hid person person_id Hdb Hn).
          unfold keys. apply (in_map fst) in Hitem. exact Hitem. }
  rewrite Hjoin. reflexivity.
Qed.

Lemma get_top_persons_returns_witness :
  (forall person, In person MoreSamples.namesakes_db ->
                  dict_get person (lit "name") <> None)
  /\ (forall person person_id,
        In person MoreSamples.namesakes_db ->
        dict_get person (lit "name") = Some person_id ->
        In person_id (keys [(lit "Rudolf", 2); (lit "Anna", 5)]) ->
        dict_get person (lit "id") <> None)
  /\ get_top_persons [(lit "Rudolf", 2); (lit "Anna", 5)]
       MoreSamples.namesakes_db 2
     = Ok (slice_to 2
             (sorted_desc entry_count
                (joined_entries [(lit "Rudolf", 2); (lit "Anna", 5)]
                   MoreSamples.namesakes_db))).
Proof.
  assert (H1 : forall person, In person MoreSamples.namesakes_db ->
                              dict_get person (lit "name") <> None).
  { intros person [<- | [<- | [<- | []]]]; vm_compute; discriminate. }
  assert (H2 : forall person person_id,
             In person MoreSamples.namesakes_db ->
             dict_get person (lit "name") = Some person_id ->
             In person_id (keys [(lit "Rudolf", 2); (lit "Anna", 5)]) ->
             dict_get person (lit "id") <> None).
  { intros person person_id [<- | [<- | [<- | []]]] _ _;
      vm_compute; discriminate. }
  split; [exact H1 |]. split; [exact H2 |].
  apply (get_top_persons_returns [(lit "Rudolf", 2); (lit "Anna", 5)]
           MoreSamples.namesakes_db 2 H1 H2).
Defined.

(** ** The exceptions of get_top_persons *)

Lemma join_record_raise_key (person_id : str) (count : Z) (person : record)
  (acc : list entry) (e : exn) :
  join_record person_id count person acc = Raise e ->
  (e = KeyError (lit "name") /\ dict_get person (lit "name") = None)
  \/ (e = KeyError (lit "id") /\ dict_get person (lit "id") = None
      /\ dict_get person (lit "name") = Some person_id).
Proof.
  unfold join_record, getitem.
  destruct (dict_get person (lit "name")) as [name |]; simpl.
  - destruct (str_eqb name person_id) eqn:E; [| discriminate].
    apply str_eqb_eq in E. subst name.
    destruct (dict_get person (lit "id")) as [id |]; simpl; [discriminate |].
    intros H. injection H as <-. right. auto.
  - intros H. injection H as <-. left. auto.
Qed.

Lemma get_top_persons_Raise (references : dict Z) (db : list record) (n : Z)
  (e : exn) :
  get_top_persons references db n = Raise e <-> join references db = Raise e.
Proof.
  unfold get_top_persons. destruct (join references db); simpl;
    split; congruence.
Qed.

(** X3. The only exceptions of [get_top_persons] are the [KeyError] for
    [name], raised for a record of the dump without that key, and the
    [KeyError] for [id], raised for a record without that key whose name is
    a key of the mapping. *)
Theorem get_top_persons_raises_KeyError (references : dict Z)
  (db : list record) (n : Z) (e : exn) :
  get_top_persons references db n = Raise e ->
  exists person,
    In person db
    /\ ((e = KeyError (lit "name") /\ dict_get person (lit "name") = None)
        \/ (e = KeyError (lit "id") /\ dict_get person (lit "id") = None
            /\ exists person_id,
                dict_get person (lit "name") = Some person_id
                /\ In person_id (keys references))).
Proof.
  intros H. apply get_top_persons_Raise in H. unfold join in H.
  set (P := fun e : exn =>
    exists person,
      In person db
      /\ ((e = KeyError (lit "name") /\ dict_get person (lit "name") = None)
          \/ (e = KeyError (lit "id") /\ dict_get person (lit "id") = None
              /\ exists person_id,
                  dict_get person (lit "name") = Some person_id
                  /\ In person_id (keys references)))).
  apply (for_each_raise_inv P references (join_reference db) [] e);
    [| exact H].
  intros [person_id count] acc e' Hitem. unfold join_reference. simpl.
  apply (for_each_raise_inv P db (join_record person_id count) acc e').
  intros person acc' e'' Hdb Hraise. exists person. split; [exact Hdb |].
  apply join_record_raise_key in Hraise.
  destruct Hraise as [[-> Hname] | [-> [Hid Hname]]]; [left; auto | right].
  split; [reflexivity |]. split; [exact Hid |]. exists person_id.
  split; [exact Hname |]. apply (in_map fst) in Hitem. exact Hitem.
Qed.

Lemma get_top_persons_raises_KeyError_witness :
  get_top_persons [(lit "Rudolf", 2); (lit "Anna", 5)]
    MoreSamples.nameless_db 1
  = Raise (KeyError (lit "name"))
  /\ exists person,
       In person MoreSamples.nameless_db
       /\ ((KeyError (lit "name") = KeyError (lit "name")
            /\ dict_get person (lit "name") = None)
           \/ (KeyError (lit "name") = KeyError (lit "id")
               /\ dict_get person (lit "id") = None
               /\ exists person_id,
                   dict_get person (lit "name") = Some person_id
                   /\ In person_id
                        (keys [(lit "Rudolf", 2); (lit "Anna", 5)]))).
Proof.
  assert (H : get_top_persons [(lit "Rudolf", 2); (lit "Anna", 5)]
                MoreSamples.nameless_db 1
              = Raise (KeyError (lit "name"))) by (vm_compute; reflexivity).
  split; [exact H |].
  apply (get_top_persons_raises_KeyError _ _ _ _ H).
Defined.



(** ** The number of entries returned *)

Lemma len_sorted_desc {A} (key : A -> Z) (l : list A) :
  len (sorted_desc key l) = len l.
Proof.
  unfold len. rewrite <- (Permutation_length (sorted_desc_perm key l)).
  reflexivity.
Qed.

(** X5. For a requested [n] that is not negative, the ranking has
    min(n, number of joined entries) entries, so never more than [n]. *)
Theorem get_top_persons_count (references : dict Z) (db : list record)
  (n : Z) (top : list entry) :
  0 <= n ->
  get_top_persons references db n = Ok top ->
  len top = Z.min n (len (joined_entries references db)) /\ len top <= n.
Proof.
  intros Hn Htop. apply get_top_persons_Ok_eq in Htop. subst top.
  rewrite len_slice_to by exact Hn. rewrite len_sorted_desc. lia.
Qed.

Lemma get_top_persons_count_witness :
  0 <= 2
  /\ get_top_persons [(lit "Rudolf", 2); (lit "Anna", 5)]
       MoreSamples.namesakes_db 2
     = Ok [(lit "Anna", lit "P00000002", 5);
           (lit "Rudolf", lit "P00000001", 2)]
  /\ len [(lit "Anna", lit "P00000002", 5);
          (lit "Rudolf", lit "P00000001", 2)]
     = Z.min 2 (len (joined_entries [(lit "Rudolf", 2); (lit "Anna", 5)]
                       MoreSamples.namesakes_db))
  /\ len [(lit "Anna", lit "P00000002", 5);
          (lit "Rudolf", lit "P00000001", 2)] <= 2.
Proof.
  assert (H1 : 0 <= 2) by lia.
  assert (H2 : get_top_persons [(lit "Rudolf", 2); (lit "Anna", 5)]
                 MoreSamples.namesakes_db 2
               = Ok [(lit "Anna", lit "P00000002", 5);
                     (lit "Rudolf", lit "P00000001", 2)])
    by (vm_compute; reflexivity).
  split; [exact H1 |]. split; [exact H2 |].
  apply (get_top_persons_count _ _ 2 _ H1 H2).
Defined.

(** X6. A negative [n] is not refused: the ranking then lacks its last
    [-n] entries, those of the smallest counts, and is empty when the join
    has no more than [-n]. *)
Theorem get_top_persons_negative (references : dict Z) (db : list record)
  (n : Z) (top : list entry) :
  n < 0 ->
  get_top_persons references db n = Ok top ->
  len top = Z.max 0 (len (joined_entries references db) + n)
  /\ exists last_ones,
       sorted_desc entry_count (joined_entries references db)
       = top ++ last_ones
       /\ len last_ones = Z.min (- n) (len (joined_entries references db)).
Proof.
  intros Hn Htop. apply get_top_persons_Ok_eq in Htop. subst top.
  unfold slice_to. destruct (0 <=? n) eqn:E; [apply Z.leb_le in E; lia |].
  set (l := sorted_desc entry_count (joined_entries references db)).
  assert (Hl : len l = len (joined_entries references db))
    by apply len_sorted_desc.
  rewrite <- Hl. set (k := (length l - Z.to_nat (- n))%nat).
  split.
  - unfold len. rewrite length_firstn. unfold k. lia.
  - exists (skipn k l). split; [symmetry; apply firstn_skipn |].
    unfold len. rewrite length_skipn. unfold k. lia.
Qed.

Lemma get_top_persons_negative_witness :
  -1 < 0
  /\ get_top_persons [(lit "Rudolf", 2); (lit "Anna", 5)]
       MoreSamples.namesakes_db (-1)
     = Ok [(lit "Anna", lit "P00000002", 5);
           (lit "Rudolf", lit "P00000001", 2)]
  /\ len [(lit "Anna", lit "P00000002", 5);
          (lit "Rudolf", lit "P00000001", 2)]
     = Z.max 0 (len (joined_entries [(lit "Rudolf", 2); (lit "Anna", 5)]
                       MoreSamples.namesakes_db) + -1).
Proof.
  assert (H1 : -1 < 0) by lia.
  assert (H2 : get_top_persons [(lit "Rudolf", 2); (lit "Anna", 5)]
                 MoreSamples.namesakes_db (-1)
               = Ok [(lit "Anna", lit "P00000002", 5);
                     (lit "Rudolf", lit "P00000001", 2)])
    by (vm_compute; reflexivity).
  split; [exact H1 |]. split; [exact H2 |].
  apply (get_top_persons_negative _ _ (-1) _ H1 H2).
Defined.

(** X7. When [n] is at least the number of joined entries nothing is left
    out: the ranking holds each joined entry, as often as the join produced
    it. A key with several records of its name therefore stands in the
    ranking once per record. *)
Theorem get_top_persons_all (references : dict Z) (db : list record)
  (n : Z) (top : list entry) :
  len (joined_entries references db) <= n ->
  get_top_persons references db n = Ok top ->
  Permutation (joined_entries references db) top.
Proof.
  intros Hn Htop. apply get_top_persons_Ok_eq in Htop. subst top.
  rewrite slice_to_short by (rewrite len_sorted_desc; exact Hn).
  apply sorted_desc_perm.
Qed.

Lemma get_top_persons_all_witness :
  len (joined_entries [(lit "Rudolf", 2); (lit "Anna", 5)]
         MoreSamples.namesakes_db) <= 3
  /\ get_top_persons [(lit "Rudolf", 2); (lit "Anna", 5)]
       MoreSamples.namesakes_db 3
     = Ok [(lit "Anna", lit "P00000002", 5);
           (lit "Rudolf", lit "P00000001", 2);
           (lit "Rudolf", lit "P00000003", 2)]
  /\ Permutation
       (joined_entries [(lit "Rudolf", 2); (lit "Anna", 5)]
          MoreSamples.namesakes_db)
       [(lit "Anna", lit "P00000002", 5);
        (lit "Rudolf", lit "P00000001", 2);
        (lit "Rudolf", lit "P00000003", 2)].
Proof.
  assert (H1 : len (joined_entries [(lit "Rudolf", 2); (lit "Anna", 5)]
                      MoreSamples.namesakes_db) <= 3)
    by (vm_compute; discriminate).
  assert (H2 : get_top_persons [(lit "Rudolf", 2); (lit "Anna", 5)]
                 MoreSamples.namesakes_db 3
               = Ok [(lit "Anna", lit "P00000002", 5);
                     (lit "Rudolf", lit "P00000001", 2);
                     (lit "Rudolf", lit "P00000003", 2)])
    by (vm_compute; reflexivity).
  split; [exact H1 |]. split; [exact H2 |].
  apply (get_top_persons_all _ _ 3 _ H1 H2).
Defined.

(** ** The mapping of extract_referenced_persons *)

Lemma dict_get_In {V} (d : dict V) (k : str) (v : V) :
  dict_get d k = Some v -> In (k, v) d.
Proof.
  induction d as [| [k' v'] d IH]; simpl; [discriminate |].
  destruct (str_eq_dec k' k) as [-> | N].
  - intros H. injection H as ->. left. reflexivity.
  - intros H. right. apply IH. exact H.
Qed.

Lemma extract_Ok (fromstring : str -> result Element) (xml_files : list str)
  (persons : dict Z) :
  extract_referenced_persons fromstring xml_files = Ok persons ->
  exists roots, parse_all fromstring xml_files = Ok roots
                /\ persons = set_all (flat_map person_keys roots) [].
Proof.
  rewrite extract_referenced_persons_spec. intros H.
  apply bind_Ok_inv in H. destruct H as [roots [Hroots H]].
  exists roots. split; [exact Hroots | congruence].
Qed.

(** X8. Whatever the documents, a count looked up in the mapping returned
    is 1: the mapping records which persons are referenced, not how
    often. *)
Theorem extract_referenced_persons_counts (fromstring : str -> result Element)
  (xml_files : list str) (persons : dict Z) (k : str) (count : Z) :
  extract_referenced_persons fromstring xml_files = Ok persons ->
  dict_get persons k = Some count ->
  count = 1.
Proof.
  intros Hex Hget. apply extract_counts_one in Hex.
  rewrite Forall_forall in Hex. apply dict_get_In in Hget.
  apply (Hex (k, count) Hget).
Qed.

Lemma extract_referenced_persons_counts_witness :
  extract_referenced_persons Samples.fromstring
    [Samples.lower_text; Samples.twice_text]
  = Ok [(lit "P00012345", 1); (lit "P0001234-", 1)]
  /\ dict_get [(lit "P00012345", 1); (lit "P0001234-", 1)] (lit "P00012345")
     = Some 1
  /\ 1 = 1.
Proof.
  assert (H1 : extract_referenced_persons Samples.fromstring
                 [Samples.lower_text; Samples.twice_text]
               = Ok [(lit "P00012345", 1); (lit "P0001234-", 1)])
    by (vm_compute; reflexivity).
  assert (H2 : dict_get [(lit "P00012345", 1); (lit "P0001234-", 1)]
                 (lit "P00012345") = Some 1) by (vm_compute; reflexivity).
  split; [exact H1 |]. split; [exact H2 |].
  apply (extract_referenced_persons_counts Samples.fromstring _ _ _ 1 H1 H2).
Defined.

(** X9. No key of the mapping returned has more than nine characters. *)
Theorem extract_referenced_persons_key_length
  (fromstring : str -> result Element) (xml_files : list str)
  (persons : dict Z) (k : str) :
  extract_referenced_persons fromstring xml_files = Ok persons ->
  In k (keys persons) ->
  (length k <= 9)%nat.
Proof.
  intros Hex Hk.
  destruct (extract_keys fromstring xml_files persons Hex) as [roots [_ Hkeys]].
  apply Hkeys in Hk. destruct Hk as [root [e [ref [_ [_ [_ [_ ->]]]]]]].
  apply counting_key_length.
Qed.

Lemma extract_referenced_persons_key_length_witness :
  extract_referenced_persons Samples.fromstring [Samples.lower_text]
  = Ok [(lit "P00012345", 1); (lit "P0001234-", 1)]
  /\ In (lit "P0001234-") (keys [(lit "P00012345", 1); (lit "P0001234-", 1)])
  /\ (length (lit "P0001234-") <= 9)%nat.
Proof.
  assert (H1 : extract_referenced_persons Samples.fromstring
                 [Samples.lower_text]
               = Ok [(lit "P00012345", 1); (lit "P0001234-", 1)])
    by (vm_compute; reflexivity).
  assert (H2 : In (lit "P0001234-")
                  (keys [(lit "P00012345", 1); (lit "P0001234-", 1)]))
    by (right; left; reflexivity).
  split; [exact H1 |]. split; [exact H2 |].
  apply (extract_referenced_persons_key_length Samples.fromstring _ _ _ H1 H2).
Defined.

Lemma in_first_seen (l : list str) (k : str) : In k (first_seen l) <-> In k l.
Proof.
  unfold first_seen. rewrite <- in_rev, nodup_In, <- in_rev. tauto.
Qed.

Lemma first_seen_snoc (l : list str) (k : str) :
  first_seen (l ++ [k])
  = if in_dec str_eq_dec k l then first_seen l else first_seen l ++ [k].
Proof.
  unfold first_seen. rewrite rev_app_distr. simpl.
  destruct (in_dec str_eq_dec k (rev l)) as [I | N];
    destruct (in_dec str_eq_dec k l) as [I' | N']; try reflexivity.
  - exfalso. apply N'. apply in_rev. exact I.
  - exfalso. apply N. apply in_rev in I'. exact I'.
Qed.

Lemma dict_set_one_again (l : list str) (k : str) :
  In k l ->
  dict_set (map (fun k => (k, 1)) l) k 1 = map (fun k => (k, 1)) l.
Proof.
  induction l as [| k' l IH]; simpl; intros Hin; [destruct Hin |].
  destruct (str_eq_dec k' k) as [E | N]; [reflexivity |].
  destruct Hin as [E | Hin]; [contradiction |]. rewrite IH by exact Hin.
  reflexivity.
Qed.

Lemma dict_set_one_new (l : list str) (k : str) :
  ~ In k l ->
  dict_set (map (fun k => (k, 1)) l) k 1 = map (fun k => (k, 1)) (l ++ [k]).
Proof.
  induction l as [| k' l IH]; simpl; intros Hnot; [reflexivity |].
  destruct (str_eq_dec k' k) as [E | N]; [exfalso; apply Hnot; left; exact E |].
  rewrite IH; [reflexivity |]. intros Hin. apply Hnot. right. exact Hin.
Qed.

Lemma set_all_first_seen (ks : list str) :
  set_all ks [] = map (fun k => (k, 1)) (first_seen ks).
Proof.
  induction ks as [| k ks IH] using rev_ind; [reflexivity |].
  rewrite set_all_app, IH, first_seen_snoc. simpl.
  destruct (in_dec str_eq_dec k ks) as [I | N].
  - apply dict_set_one_again. apply in_first_seen. exact I.
  - apply dict_set_one_new. rewrite in_first_seen. exact N.
Qed.

(** X10. The mapping returned lists each referenced key once, with the
    count 1, in the order in which the keys first occur: document after
    document, and within a document in document order. This is the order
    in which [get_top_persons] goes through it. *)
Theorem extract_referenced_persons_order (fromstring : str -> result Element)
  (xml_files : list str) (persons : dict Z) :
  extract_referenced_persons fromstring xml_files = Ok persons ->
  exists roots,
    Forall2 (fun file root => fromstring file = Ok root) xml_files roots
    /\ persons
       = map (fun k => (k, 1)) (first_seen (flat_map person_keys roots)).
Proof.
  intros Hex. apply extract_Ok in Hex. destruct Hex as [roots [Hroots ->]].
  exists roots. split; [apply parse_all_Ok; exact Hroots |].
  apply set_all_first_seen.
Qed.

Lemma extract_referenced_persons_order_witness :
  extract_referenced_persons Samples.fromstring
    [Samples.rudolf_text; Samples.lower_text; Samples.rudolf_text]
  = Ok [(lit "Rudolf", 1); (lit "P00012345", 1); (lit "P0001234-", 1)]
  /\ exists roots,
       Forall2 (fun file root => Samples.fromstring file = Ok root)
         [Samples.rudolf_text; Samples.lower_text; Samples.rudolf_text] roots
       /\ [(lit "Rudolf", 1); (lit "P00012345", 1); (lit "P0001234-", 1)]
          = map (fun k => (k, 1)) (first_seen (flat_map person_keys roots)).
Proof.
  assert (H : extract_referenced_persons Samples.fromstring
                [Samples.rudolf_text; Samples.lower_text; Samples.rudolf_text]
              = Ok [(lit "Rudolf", 1); (lit "P00012345", 1);
                    (lit "P0001234-", 1)]) by (vm_compute; reflexivity).
  split; [exact H |].
  apply (extract_referenced_persons_order Samples.fromstring _ _ H).
Defined.

(** ** The exceptions of extract_referenced_persons *)

Lemma parse_all_first_error (fromstring : str -> result Element)
  (parsed : list str) (file : str) (rest : list str) (e : exn) :
  Forall (fun f => exists root, fromstring f = Ok root) parsed ->
  fromstring file = Raise e ->
  parse_all fromstring (parsed ++ file :: rest) = Raise e.
Proof.
  intros Hparsed Hfile. induction Hparsed as [| f fs [root Hroot] _ IH]; simpl.
  - rewrite Hfile. reflexivity.
  - rewrite Hroot, IH. reflexivity.
Qed.

Lemma parse_all_Raise (fromstring : str -> result Element)
  (xml_files : list str) (e : exn) :
  parse_all fromstring xml_files = Raise e ->
  exists parsed file rest,
    xml_files = parsed ++ file :: rest
    /\ Forall (fun f => exists root, fromstring f = Ok root) parsed
    /\ fromstring file = Raise e.
Proof.
  induction xml_files as [| f fs IH]; simpl; [discriminate |].
  destruct (fromstring f) as [root | e'] eqn:Ef; simpl.
  - destruct (parse_all fromstring fs) as [roots | e'']; simpl; [discriminate |].
    intros H. injection H as ->. destruct IH as [parsed [file [rest [-> [Hp Hf]]]]];
      [reflexivity |].
    exists (f :: parsed), file, rest. split; [reflexivity |].
    split; [constructor; [exists root; exact Ef | exact Hp] | exact Hf].
  - intros H. injection H as ->. exists [], f, fs. auto.
Qed.

(** X11. A document that does not parse ends the extraction with the
    parser's exception, also when documents before it were counted and
    whatever follows it: no mapping is returned for the others. *)
Theorem extract_referenced_persons_parse_error
  (fromstring : str -> result Element) (parsed : list str) (file : str)
  (rest : list str) (e : exn) :
  Forall (fun f => exists root, fromstring f = Ok root) parsed ->
  fromstring file = Raise e ->
  extract_referenced_persons fromstring (parsed ++ file :: rest) = Raise e.
Proof.
  intros Hparsed Hfile. rewrite extract_referenced_persons_spec.
  rewrite (parse_all_first_error fromstring parsed file rest e Hparsed Hfile).
  reflexivity.
Qed.

Lemma extract_referenced_persons_parse_error_witness :
  Forall (fun f => exists root, Samples.fromstring f = Ok root)
    [Samples.twice_text]
  /\ Samples.fromstring MoreSamples.broken_text = Raise ParseError
  /\ extract_referenced_persons Samples.fromstring
       ([Samples.twice_text] ++ MoreSamples.broken_text :: [Samples.lower_text])
     = Raise ParseError.
Proof.
  assert (H1 : Forall (fun f => exists root, Samples.fromstring f = Ok root)
                 [Samples.twice_text]).
  { constructor; [| constructor]. exists Samples.twice_root.
    vm_compute. reflexivity. }
  assert (H2 : Samples.fromstring MoreSamples.broken_text = Raise ParseError)
    by (vm_compute; reflexivity).
  split; [exact H1 |]. split; [exact H2 |].
  apply (extract_referenced_persons_parse_error Samples.fromstring
           [Samples.twice_text] MoreSamples.broken_text [Samples.lower_text]
           ParseError H1 H2).
Defined.

(** X12. The extraction raises nothing of its own: an exception of
    [extract_referenced_persons] is the one the parser raised for the first
    document it could not parse. In particular [ref[:9]] is never applied
    to [None]. *)
Theorem extract_referenced_persons_raises (fromstring : str -> result Element)
  (xml_files : list str) (e : exn) :
  extract_referenced_persons fromstring xml_files = Raise e ->
  exists parsed file rest,
    xml_files = parsed ++ file :: rest
    /\ Forall (fun f => exists root, fromstring f = Ok root) parsed
    /\ fromstring file = Raise e.
Proof.
  rewrite extract_referenced_persons_spec. intros H.
  apply parse_all_Raise.
  destruct (parse_all fromstring xml_files) as [roots | e']; simpl in H;
    [discriminate | congruence].
Qed.

Lemma extract_referenced_persons_raises_witness :
  extract_referenced_persons Samples.fromstring
    [Samples.twice_text; MoreSamples.broken_text]
  = Raise ParseError
  /\ exists parsed file rest,
       [Samples.twice_text; MoreSamples.broken_text] = parsed ++ file :: rest
       /\ Forall (fun f => exists root, Samples.fromstring f = Ok root) parsed
       /\ Samples.fromstring file = Raise ParseError.
Proof.
  assert (H : extract_referenced_persons Samples.fromstring
                [Samples.twice_text; MoreSamples.broken_text]
              = Raise ParseError) by (vm_compute; reflexivity).
  split; [exact H |].
  apply (extract_referenced_persons_raises Samples.fromstring _ _ H).
Defined.

(** ** Documents taken together *)

Lemma parse_all_app (fromstring : str -> result Element)
  (files1 files2 : list str) (roots1 roots2 : list Element) :
  parse_all fromstring files1 = Ok roots1 ->
  parse_all fromstring files2 = Ok roots2 ->
  parse_all fromstring (files1 ++ files2) = Ok (roots1 ++ roots2).
Proof.
  revert roots1. induction files1 as [| f fs IH]; simpl; intros roots1 H1 H2.
  - injection H1 as <-. exact H2.
  - apply bind_Ok_inv in H1. destruct H1 as [root [Hroot H1]].
    apply bind_Ok_inv in H1. destruct H1 as [roots [Hroots H1]].
    injection H1 as <-. rewrite Hroot, (IH roots Hroots H2). reflexivity.
Qed.

Lemma keys_ones (l : list str) : keys (map (fun k => (k, 1)) l) = l.
Proof.
  unfold keys. rewrite map_map. simpl. apply map_id.
Qed.

Lemma first_seen_app_initial (l1 l2 : list str) :
  initial (first_seen l1) (first_seen (l1 ++ l2)).
Proof.
  induction l2 as [| k l2 [rest IH]] using rev_ind.
  - rewrite app_nil_r. exists []. rewrite app_nil_r. reflexivity.
  - rewrite app_assoc, first_seen_snoc.
    destruct (in_dec str_eq_dec k (l1 ++ l2)).
    + exists rest. exact IH.
    + exists (rest ++ [k]). rewrite IH, app_assoc. reflexivity.
Qed.

(** X13. The mapping for two lists of documents taken together has the
    keys of the mapping for the first list, in their places, followed by
    the keys that only the second list has. With every count being 1, what
    the lists have in common is not added up. *)
Theorem extract_referenced_persons_app (fromstring : str -> result Element)
  (files1 files2 : list str) (persons1 persons2 : dict Z) :
  extract_referenced_persons fromstring files1 = Ok persons1 ->
  extract_referenced_persons fromstring files2 = Ok persons2 ->
  exists persons,
    extract_referenced_persons fromstring (files1 ++ files2) = Ok persons
    /\ (forall k, In k (keys persons) <->
                  In k (keys persons1) \/ In k (keys persons2))
    /\ initial (keys persons1) (keys persons)
    /\ Forall (fun kv => snd kv = 1) persons.
Proof.
  intros H1 H2.
  apply extract_Ok in H1. destruct H1 as [roots1 [Hr1 ->]].
  apply extract_Ok in H2. destruct H2 as [roots2 [Hr2 ->]].
  exists (set_all (flat_map person_keys (roots1 ++ roots2)) []).
  split; [| split; [| split]].
  - rewrite extract_referenced_persons_spec.
    rewrite (parse_all_app fromstring _ _ _ _ Hr1 Hr2). reflexivity.
  - intros k. rewrite !in_keys_set_all, flat_map_app, in_app_iff. simpl. tauto.
  - rewrite !set_all_first_seen, !keys_ones, flat_map_app.
    apply first_seen_app_initial.
  - apply values_set_all. constructor.
Qed.

Lemma extract_referenced_persons_app_witness :
  extract_referenced_persons Samples.fromstring [Samples.lower_text]
  = Ok [(lit "P00012345", 1); (lit "P0001234-", 1)]
  /\ extract_referenced_persons Samples.fromstring
       [Samples.rudolf_text; Samples.twice_text]
     = Ok [(lit "Rudolf", 1); (lit "P00012345", 1)]
  /\ exists persons,
       extract_referenced_persons Samples.fromstring
         ([Samples.lower_text] ++ [Samples.rudolf_text; Samples.twice_text])
       = Ok persons
       /\ (forall k, In k (keys persons) <->
                     In k (keys [(lit "P00012345", 1); (lit "P0001234-", 1)])
                     \/ In k (keys [(lit "Rudolf", 1); (lit "P00012345", 1)]))
       /\ initial (keys [(lit "P00012345", 1); (lit "P0001234-", 1)])
            (keys persons)
       /\ Forall (fun kv => snd kv = 1) persons.
Proof.
  assert (H1 : extract_referenced_persons Samples.fromstring
                 [Samples.lower_text]
               = Ok [(lit "P00012345", 1); (lit "P0001234-", 1)])
    by (vm_compute; reflexivity).
  assert (H2 : extract_referenced_persons Samples.fromstring
                 [Samples.rudolf_text; Samples.twice_text]
               = Ok [(lit "Rudolf", 1); (lit "P00012345", 1)])
    by (vm_compute; reflexivity).
  split; [exact H1 |]. split; [exact H2 |].
  apply (extract_referenced_persons_app Samples.fromstring _ _ _ _ H1 H2).
Defined.

(** ** The ranking of an extracted mapping *)

Lemma joined_counts_one (references : dict Z) (db : list record) :
  Forall (fun kv => snd kv = 1) references ->
  Forall (fun x => entry_count x = 1) (joined_entries references db).
Proof.
  intros Hone. apply Forall_forall. intros [[name id] count] Hin.
  apply in_joined_entries in Hin. destruct Hin as [Hitem _].
  rewrite Forall_forall in Hone. apply (Hone (name, count) Hitem).
Qed.

(** Sorting leaves a list of equal keys as it is. *)
Lemma sorted_desc_const {A} (key : A -> Z) (c : Z) (l : list A) :
  Forall (fun x => key x = c) l -> sorted_desc key l = l.
Proof.
  induction 1 as [| x l Hx Hl IH]; simpl; [reflexivity |].
  rewrite IH. destruct Hl as [| y l Hy Hl]; simpl; [reflexivity |].
  rewrite Hx, Hy, Z.ltb_irrefl. reflexivity.
Qed.

(** X14. Run on the mapping that [extract_referenced_persons] returns,
    [get_top_persons] ranks nothing: every entry has the count 1, and the
    entries are the first [n] of the join, in the order in which the keys
    first occur in the documents and, for one key, in the order of the
    dump. *)
Theorem get_top_persons_of_extracted (fromstring : str -> result Element)
  (xml_files : list str) (persons : dict Z) (db : list record) (n : Z)
  (top : list entry) :
  extract_referenced_persons fromstring xml_files = Ok persons ->
  get_top_persons persons db n = Ok top ->
  top = slice_to n (joined_entries persons db)
  /\ Forall (fun x => entry_count x = 1) top.
Proof.
  intros Hex Htop. apply extract_counts_one in Hex.
  apply get_top_persons_Ok_eq in Htop. subst top.
  pose proof (joined_counts_one persons db Hex) as Hone.
  rewrite (sorted_desc_const entry_count 1 _ Hone).
  split; [reflexivity |]. apply Forall_forall. intros x Hx.
  apply in_slice_to in Hx. rewrite Forall_forall in Hone. apply Hone. exact Hx.
Qed.

Lemma get_top_persons_of_extracted_witness :
  extract_referenced_persons Samples.fromstring
    [Samples.rudolf_text; Samples.rudolf_text]
  = Ok [(lit "Rudolf", 1)]
  /\ get_top_persons [(lit "Rudolf", 1)] MoreSamples.namesakes_db 5
     = Ok [(lit "Rudolf", lit "P00000001", 1);
           (lit "Rudolf", lit "P00000003", 1)]
  /\ [(lit "Rudolf", lit "P00000001", 1); (lit "Rudolf", lit "P00000003", 1)]
     = slice_to 5 (joined_entries [(lit "Rudolf", 1)] MoreSamples.namesakes_db)
  /\ Forall (fun x => entry_count x = 1)
       [(lit "Rudolf", lit "P00000001", 1);
        (lit "Rudolf", lit "P00000003", 1)].
Proof.
  assert (H1 : extract_referenced_persons Samples.fromstring
                 [Samples.rudolf_text; Samples.rudolf_text]
               = Ok [(lit "Rudolf", 1)]) by (vm_compute; reflexivity).
  assert (H2 : get_top_persons [(lit "Rudolf", 1)] MoreSamples.namesakes_db 5
               = Ok [(lit "Rudolf", lit "P00000001", 1);
                     (lit "Rudolf", lit "P00000003", 1)])
    by (vm_compute; reflexivity).
  split; [exact H1 |]. split; [exact H2 |].
  apply (get_top_persons_of_extracted Samples.fromstring _ _ _ 5 _ H1 H2).
Defined.

(** ** The files that load_data reads *)

Lemma in_tails {A} (l t : list A) :
  In t (tails l) <-> exists stem, l = stem ++ t.
Proof.
  induction l as [| x l IH].
  - simpl. split.
    + intros [<- | []]. exists []. reflexivity.
    + intros [stem H]. symmetry in H. apply app_eq_nil in H.
      left. symmetry. apply H.
  - change (tails (x :: l)) with ((x :: l) :: tails l). simpl. rewrite IH. split.
    + intros [<- | [stem ->]]; [exists []; reflexivity |].
      exists (x :: stem). reflexivity.
    + intros [[| y stem] H]; simpl in H.
      * left. exact H.
      * injection H as <- ->. right. exists stem. reflexivity.
Qed.

(** A pattern without [*] matches itself only. *)
Lemma fnmatch_literal (pat name : str) :
  Forall (fun c => c <> 42%N) pat ->
  (fnmatch pat name = true <-> name = pat).
Proof.
  intros Hpat. revert name. induction Hpat as [| c pat Hc _ IH]; intros name.
  - destruct name; simpl; split; intros H; try reflexivity; discriminate H.
  - simpl. apply N.eqb_neq in Hc. rewrite Hc.
    destruct name as [| d name]; [split; discriminate |].
    rewrite andb_true_iff, N.eqb_eq, IH. split.
    + intros [-> ->]. reflexivity.
    + intros H. injection H as -> ->. auto.
Qed.

Lemma fnmatch_xml (name : str) :
  fnmatch (lit "*-1.xml") name = true <-> ends_with (lit "-1.xml") name.
Proof.
  change (fnmatch (lit "*-1.xml") name)
    with (existsb (fnmatch (lit "-1.xml")) (tails name)).
  rewrite existsb_exists. unfold ends_with. split.
  - intros [t [Ht Hm]]. apply fnmatch_literal in Hm.
    + subst t. apply in_tails. exact Ht.
    + repeat constructor; discriminate.
  - intros Hend. exists (lit "-1.xml"). split; [apply in_tails; exact Hend |].
    apply fnmatch_literal; [repeat constructor; discriminate | reflexivity].
Qed.

Lemma glob_xml_inv (data_dir : directory) (f : str * result str) :
  In f (glob data_dir (lit "*-1.xml")) ->
  In f data_dir /\ ends_with (lit "-1.xml") (fst f).
Proof.
  unfold glob. rewrite filter_In, fnmatch_xml. tauto.
Qed.

Lemma glob_split (before after : directory) (f : str * result str)
  (pat : str) :
  glob (before ++ f :: after) pat
  = glob before pat
      ++ (if fnmatch pat (fst f) then f :: glob after pat else glob after pat).
Proof.
  unfold glob. rewrite filter_app. reflexivity.
Qed.

(** X15. The files that [load_data] goes through are the entries of the
    directory whose name ends in [-1.xml], the bare name [-1.xml] among
    them (names compared character by character, as on a POSIX file
    system). *)
Theorem glob_xml (data_dir : directory) (f : str * result str) :
  In f (glob data_dir (lit "*-1.xml")) <->
  In f data_dir /\ ends_with (lit "-1.xml") (fst f).
Proof.
  unfold glob. rewrite filter_In, fnmatch_xml. tauto.
Qed.

Lemma read_files_readable (files rest : directory) (xml_files : list str) :
  Forall readable files ->
  exists read, read_files (files ++ rest) xml_files = read_files rest read.
Proof.
  intros Hall. revert xml_files.
  induction Hall as [| [name text] files [t Ht] _ IH]; intros xml_files; simpl.
  - exists xml_files. reflexivity.
  - simpl in Ht. subst text. simpl. apply IH.
Qed.

(** X16. When every entry of the directory whose name ends in [-1.xml] can
    be read, [load_data] ends in [StopIteration], whatever else the
    directory holds. *)
Theorem load_data_raises_StopIteration
  (json_loads : str -> result (list record)) (data_dir : directory)
  (db_file : str) :
  (forall f, In f data_dir -> ends_with (lit "-1.xml") (fst f) -> readable f) ->
  load_data json_loads data_dir db_file = Raise StopIteration.
Proof.
  intros Hread. apply load_data_StopIteration. apply Forall_forall.
  intros f Hf. apply glob_xml_inv in Hf. destruct Hf as [Hin Hend].
  apply (Hread f Hin Hend).
Qed.

Lemma load_data_raises_StopIteration_witness :
  (forall f, In f Samples.two_files -> ends_with (lit "-1.xml") (fst f) ->
             readable f)
  /\ load_data Samples.json_loads Samples.two_files DB_FILE
     = Raise StopIteration.
Proof.
  assert (H : forall f, In f Samples.two_files ->
                        ends_with (lit "-1.xml") (fst f) -> readable f).
  { intros f [<- | [<- | [<- | [<- | []]]]] _; eexists; reflexivity. }
  split; [exact H |].
  apply (load_data_raises_StopIteration Samples.json_loads Samples.two_files
           DB_FILE H).
Defined.

(** X17. An entry with such a name that cannot be read ends [load_data]
    with the exception of its [read_text()], once the entries before it
    have been read; the entries after it are not touched. *)
Theorem load_data_unreadable_file
  (json_loads : str -> result (list record)) (before after : directory)
  (name db_file : str) (e : exn) :
  (forall f, In f before -> ends_with (lit "-1.xml") (fst f) -> readable f) ->
  ends_with (lit "-1.xml") name ->
  load_data json_loads (before ++ (name, Raise e) :: after) db_file = Raise e.
Proof.
  intros Hbefore Hname. unfold load_data.
  rewrite glob_split. cbn [fst]. apply fnmatch_xml in Hname. rewrite Hname.
  destruct (read_files_readable (glob before (lit "*-1.xml"))
              ((name, Raise e) :: glob after (lit "*-1.xml")) [])
    as [read Hread].
  - apply Forall_forall. intros f Hf. apply glob_xml_inv in Hf.
    destruct Hf as [Hin Hend]. apply (Hbefore f Hin Hend).
  - rewrite Hread. reflexivity.
Qed.

Lemma load_data_unreadable_file_witness :
  (forall f, In f [(lit "a-1.xml", Ok Samples.twice_text)] ->
             ends_with (lit "-1.xml") (fst f) -> readable f)
  /\ ends_with (lit "-1.xml") (lit "b-1.xml")
  /\ load_data Samples.json_loads
       ([(lit "a-1.xml", Ok Samples.twice_text)]
          ++ (lit "b-1.xml", Raise (OSError (lit "b-1.xml")))
          :: [(lit "c-1.xml", Ok Samples.rudolf_text)]) DB_FILE
     = Raise (OSError (lit "b-1.xml")).
Proof.
  assert (H1 : forall f, In f [(lit "a-1.xml", Ok Samples.twice_text)] ->
                         ends_with (lit "-1.xml") (fst f) -> readable f).
  { intros f [<- | []] _. eexists. reflexivity. }
  assert (H2 : ends_with (lit "-1.xml") (lit "b-1.xml")).
  { exists (lit "b"). reflexivity. }
  split; [exact H1 |]. split; [exact H2 |].
  apply (load_data_unreadable_file Samples.json_loads
           [(lit "a-1.xml", Ok Samples.twice_text)]
           [(lit "c-1.xml", Ok Samples.rudolf_text)]
           (lit "b-1.xml") DB_FILE (OSError (lit "b-1.xml")) H1 H2).
Defined.

(** X18. [load_data] does not get to the dump: its outcome is the same
    whatever the name of the dump file, whether the directory has it, and
    whatever [json.loads] would make of it. *)
Theorem load_data_ignores_dump (json_loads json_loads' : str -> result (list record))
  (data_dir : directory) (db_file db_file' : str) :
  load_data json_loads data_dir db_file
  = load_data json_loads' data_dir db_file'.
Proof.
  unfold load_data.
  destruct (read_files_raises (glob data_dir (lit "*-1.xml")) []) as [e ->].
  reflexivity.
Qed.

(** ** main and the script *)

(** X19. [main] prints nothing, for any directory, parsers and [top_n], and
    neither does the script for any value of [--top]: both end in the
    exception with which [load_data] ends. *)
Theorem main_never_prints (fromstring : str -> result Element)
  (json_loads : str -> result (list record)) (data_dir : directory) :
  exists e,
    load_data json_loads data_dir DB_FILE = Raise e
    /\ (forall top_n, main fromstring json_loads data_dir top_n = Raise e)
    /\ (forall top, script fromstring json_loads data_dir top = Raise e).
Proof.
  assert (H : exists e, load_data json_loads data_dir DB_FILE = Raise e).
  { unfold load_data.
    destruct (read_files_raises (glob data_dir (lit "*-1.xml")) []) as [e ->].
    exists e. reflexivity. }
  destruct H as [e He]. exists e. split; [exact He |].
  assert (Hmain : forall top_n,
             main fromstring json_loads data_dir top_n = Raise e).
  { intros top_n. unfold main. rewrite He. reflexivity. }
  split; [exact Hmain |]. intros top. unfold script. apply Hmain.
Qed.

Lemma assert_Ok (b : bool) (u : unit) : assert b = Ok u -> b = true.
Proof. unfold assert. destruct b; [reflexivity | discriminate]. Qed.

(** X20. The statements of [main] after [load_data] print only when there
    are exactly 18 documents, [top_n] is at least 1 and the first entry of
    the ranking has the name Rudolf. What they print is then the header for
    [TOP] and [top_n] lines, the first of them for Rudolf with 1
    reference. *)
Theorem main_body_prints (fromstring : str -> result Element) (top_n : Z)
  (xml_files : list str) (db_dump : list record) (lines : list str) :
  main_body fromstring top_n xml_files db_dump = Ok lines ->
  len xml_files = 18
  /\ 1 <= top_n
  /\ len lines = top_n + 1
  /\ exists id rest,
       lines = header :: line (lit "Rudolf", id, 1) :: rest.
Proof.
  unfold main_body. intros H.
  apply bind_Ok_inv in H. destruct H as [u1 [H18 H]].
  apply bind_Ok_inv in H. destruct H as [persons [Hex H]].
  apply bind_Ok_inv in H. destruct H as [top_names [Htop H]].
  apply bind_Ok_inv in H. destruct H as [u2 [Hlen H]].
  apply bind_Ok_inv in H. destruct H as [top [Hfirst H]].
  apply bind_Ok_inv in H. destruct H as [u3 [Hname H]].
  injection H as <-.
  apply assert_Ok, Z.eqb_eq in H18. apply assert_Ok, Z.eqb_eq in Hlen.
  apply assert_Ok, str_eqb_eq in Hname.
  destruct top_names as [| x rest]; simpl in Hfirst; [discriminate |].
  injection Hfirst as ->.
  assert (Hone : entry_count top = 1).
  { apply extract_counts_one in Hex. apply get_top_persons_Ok_eq in Htop.
    pose proof (joined_counts_one persons db_dump Hex) as Hj.
    rewrite Forall_forall in Hj. apply Hj.
    apply (Permutation_in _
             (Permutation_sym (sorted_desc_perm entry_count _))).
    apply (in_slice_to top_n). rewrite <- Htop. left. reflexivity. }
  destruct top as [[name id] count]. simpl in Hname, Hone. subst name count.
  unfold len in *. simpl length in *. rewrite length_map.
  repeat split; try lia.
  exists id, (map line rest). reflexivity.
Qed.

Lemma main_body_prints_witness :
  main_body Samples.fromstring 1 (repeat Samples.rudolf_text 18)
    Samples.rudolf_db
  = Ok [header; line (lit "Rudolf", lit "P00012345", 1)]
  /\ len (repeat Samples.rudolf_text 18) = 18
  /\ 1 <= 1
  /\ len [header; line (lit "Rudolf", lit "P00012345", 1)] = 1 + 1
  /\ exists id rest,
       [header; line (lit "Rudolf", lit "P00012345", 1)]
       = header :: line (lit "Rudolf", id, 1) :: rest.
Proof.
  assert (H : main_body Samples.fromstring 1 (repeat Samples.rudolf_text 18)
                Samples.rudolf_db
              = Ok [header; line (lit "Rudolf", lit "P00012345", 1)])
    by (vm_compute; reflexivity).
  split; [exact H |].
  apply (main_body_prints Samples.fromstring 1 _ _ _ H).
Defined.
